(** * Speech sessions: a shallow embedding of [speech_sessions] (models, api, views)

    Timestamps are integer seconds (UTC); the session table is a list of
    rows.  A Python float is the rational [Q] it denotes; float arithmetic
    is taken as exact, except in the admin's percentage and in [float()]
    of an int, where [round_double] writes out the binary64 rounding. *)

From Stdlib Require Import ZArith QArith Qpower Qround Qabs String Ascii List Bool.
From Stdlib Require Import Sorted Permutation Lia Lqa.
From Stdlib Require Import DecimalString DecimalPos DecimalZ.
Import ListNotations.
Open Scope Z_scope.

(** ** Data model ([models.py]) *)

Record SpeechSession := mkSession {
  id : Z;
  user : Z;
  date : Z;
  duration : Z;
  filler_count : Z;
  pacing_analysis : string;
  status : string;
  audio_file : option string;
  transcription : string;
  confidence_score : option Q;
  created_at : Z;
  updated_at : Z
}.

(** The table [SpeechSession.objects]. *)
Definition Store := list SpeechSession.

(** [Model.save()]: [updated_at] has [auto_now=True], so every [save]
    stamps it with the current time. *)
Definition save (now : Z) (s : SpeechSession) : SpeechSession :=
  {| id := id s; user := user s; date := date s; duration := duration s;
     filler_count := filler_count s; pacing_analysis := pacing_analysis s;
     status := status s; audio_file := audio_file s;
     transcription := transcription s; confidence_score := confidence_score s;
     created_at := created_at s; updated_at := now |}.

(** [SpeechSession.objects.filter(user=u)]. *)
Definition owned (u : Z) (st : Store) : list SpeechSession :=
  filter (fun s => user s =? u) st.

Definition seconds_per_day : Z := 86400.

(** ** Python numeric helpers *)

Definition Qltb (x y : Q) : bool := negb (Qle_bool y x).

(** Python [round(x, 2)]: round half to even at two decimals. *)
Definition round_half_even (y : Q) : Z :=
  let f := Qfloor y in
  match Qcompare (y - inject_Z f) (1 # 2) with
  | Lt => f
  | Gt => f + 1
  | Eq => if Z.even f then f else f + 1
  end.

Definition py_round2 (x : Q) : Q := Qmake (round_half_even (x * 100)) 100.

(** [str(n)] of a Python int. *)
Definition py_str_int (n : Z) : string := NilZero.string_of_int (Z.to_int n).

(** [floor(log2 x)] for [x > 0]: [Z.log2] of the numerator minus that of
    the denominator is the answer or one more. *)
Definition log2_floor_Q (x : Q) : Z :=
  let k := Z.log2 (Qnum x) - Z.log2 (Zpos (Qden x)) in
  if Qle_bool (Qpower (2 # 1) k) x then k else k - 1.

(** The binary64 result of a float operation whose exact value is [x]:
    the nearest double, ties to even (53-bit significand; below the normal
    range the step stays that of the subnormals, [2^-1074]).  Overflow to
    infinity is not modelled. *)
Definition round_double (x : Q) : Q :=
  if Qeq_bool x 0 then 0%Q
  else
    let e := Z.max (-1074) (log2_floor_Q (Qabs x) - 52) in
    (inject_Z (round_half_even (x / Qpower (2 # 1) e)) * Qpower (2 # 1) e)%Q.

(** [float(n)] of a Python int: the nearest double, and [OverflowError]
    when that is beyond the largest finite double. *)
Definition py_float_of_int (n : Z) : option Q :=
  let r := round_double (inject_Z n) in
  if Qle_bool (inject_Z (2 ^ 1024)) (Qabs r) then None else Some r.

Fixpoint sum_Z (l : list Z) : Z :=
  match l with [] => 0 | x :: r => x + sum_Z r end.

(** Django [Avg] over an integer column: [None] on an empty set, which the
    code turns into [0] with [or 0]. *)
Definition avg_Z (l : list Z) : Q :=
  match l with
  | [] => 0%Q
  | _ => (inject_Z (sum_Z l) / inject_Z (Z.of_nat (length l)))%Q
  end.

(** ** Analytics ([SpeechSessionViewSet.analytics]) *)

Record Analytics := mkAnalytics {
  total_sessions : Z;
  total_duration : Z;
  average_duration : Q;
  total_filler_words : Z;
  average_filler_rate : Q;
  sessions_by_status : list (string * Z);
  recent_sessions_count : Z;
  (** [None]: the key [improvement_metrics] is absent (empty-store answer);
      [Some None]: the dict [{}]; [Some (Some v)]:
      [{'filler_improvement_percent': v}]. *)
  improvement_metrics : option (option Q)
}.

Definition is_analyzed (s : SpeechSession) : bool :=
  String.eqb (status s) "analyzed".

(** [values('status').annotate(count=Count('id'))] as a dict. *)
Fixpoint bump_count (k : string) (m : list (string * Z)) : list (string * Z) :=
  match m with
  | [] => [(k, 1)]
  | (k', n) :: r => if String.eqb k k' then (k', n + 1) :: r
                    else (k', n) :: bump_count k r
  end.

Definition count_by_status (l : list SpeechSession) : list (string * Z) :=
  fold_left (fun m s => bump_count (status s) m) l [].

(** [thirty_days_ago = timezone.now() - timedelta(days=30)], read at the
    first clock reading [now1]. *)
Definition thirty_days_ago (now1 : Z) : Z := now1 - 30 * seconds_per_day.

(** [sixty_days_ago] is computed from a second clock reading [now2]. *)
Definition sixty_days_ago (now2 : Z) : Z := now2 - 60 * seconds_per_day.

(** [sessions.filter(date__gte=thirty_days_ago)]. *)
Definition recent_window (now1 : Z) (l : list SpeechSession) :=
  filter (fun s => thirty_days_ago now1 <=? date s) l.

(** [sessions.filter(date__gte=sixty_days_ago, date__lt=thirty_days_ago)]. *)
Definition previous_window (now1 now2 : Z) (l : list SpeechSession) :=
  filter (fun s => (sixty_days_ago now2 <=? date s) && (date s <? thirty_days_ago now1)) l.

(** Lines 133-140: the filler rate over analyzed sessions. *)
Definition filler_rate_of (analyzed : list SpeechSession) : Q :=
  match analyzed with
  | [] => 0%Q
  | _ =>
      let total_analyzed_duration := sum_Z (map duration analyzed) in
      if 0 <? total_analyzed_duration
      then (inject_Z (sum_Z (map filler_count analyzed))
              / inject_Z total_analyzed_duration * 60)%Q
      else 0%Q
  end.

(** Lines 152-176. *)
Definition improvement_of (now1 now2 : Z) (sessions : list SpeechSession) : option Q :=
  if 1 <? Z.of_nat (length sessions) then
    let recent_sessions := recent_window now1 sessions in
    let previous_sessions := previous_window now1 now2 sessions in
    match recent_sessions, previous_sessions with
    | _ :: _, _ :: _ =>
        let recent_avg_fillers := avg_Z (map filler_count recent_sessions) in
        let previous_avg_fillers := avg_Z (map filler_count previous_sessions) in
        if Qltb 0 previous_avg_fillers then
          Some (py_round2 ((previous_avg_fillers - recent_avg_fillers)
                             / previous_avg_fillers * 100)%Q)
        else None
    | _, _ => None
    end
  else None.

Definition analytics (now1 now2 : Z) (u : Z) (st : Store) : Analytics :=
  let sessions := owned u st in
  let total := Z.of_nat (length sessions) in
  if total =? 0 then
    {| total_sessions := 0; total_duration := 0; average_duration := 0;
       total_filler_words := 0; average_filler_rate := 0;
       sessions_by_status := []; recent_sessions_count := 0;
       improvement_metrics := None |}
  else
    let analyzed_sessions := filter is_analyzed sessions in
    {| total_sessions := total;
       total_duration := sum_Z (map duration sessions);
       average_duration := py_round2 (avg_Z (map duration sessions));
       total_filler_words := sum_Z (map filler_count analyzed_sessions);
       average_filler_rate := py_round2 (filler_rate_of analyzed_sessions);
       sessions_by_status := count_by_status sessions;
       recent_sessions_count := Z.of_nat (length (recent_window now1 sessions));
       improvement_metrics := Some (improvement_of now1 now2 sessions) |}.

(** ** Requests and responses *)

Record Actor := mkActor {
  actor_id : Z;
  is_authenticated : bool;
  is_2fa_enabled : bool;
  (** [user.is_verified()] (OTP verified in this login) *)
  is_verified : bool;
  (** [user.has_2fa_setup()] *)
  has_2fa_setup : bool
}.

Inductive Payload :=
| PNone
| PSession (s : SpeechSession)
| PCount (n : Z)
| PError (msg : string)
| PRedirect (target : string).

Record Response := mkResp { code : Z; payload : Payload }.

Definition err (c : Z) (msg : string) : Response := mkResp c (PError msg).

(** [IsAuthenticated] then [IsOwnerPermission.has_permission]; DRF answers
    401 to an unauthenticated request (token authentication sends a
    [WWW-Authenticate] header) and 403 to an authenticated one it denies. *)
Definition api_permission (a : Actor) : option Response :=
  if negb (is_authenticated a) then Some (err 401 "not authenticated")
  else if is_2fa_enabled a && negb (is_verified a)
  then Some (err 403 "permission denied")
  else None.

Fixpoint find_by_id (pk : Z) (l : list SpeechSession) : option SpeechSession :=
  match l with
  | [] => None
  | s :: r => if id s =? pk then Some s else find_by_id pk r
  end.

(** [GenericAPIView.get_object]: a lookup in [get_queryset()] (the actor's
    rows), 404 when absent, then [has_object_permission]. *)
Definition get_object (a : Actor) (pk : Z) (st : Store) : SpeechSession + Response :=
  match find_by_id pk (owned (actor_id a) st) with
  | None => inr (err 404 "Not found.")
  | Some s => if user s =? actor_id a then inl s else inr (err 403 "permission denied")
  end.

(** Replace the row with primary key [id s] (the SQL [UPDATE ... WHERE id]). *)
Definition store_put (s : SpeechSession) (st : Store) : Store :=
  map (fun r => if id r =? id s then s else r) st.

Definition store_delete (pk : Z) (st : Store) : Store :=
  filter (fun r => negb (id r =? pk)) st.

(** ** Serializer update ([SpeechSessionSerializer]) *)

(** One writable field of a PUT/PATCH body, already parsed to the field's
    type; [id], [user], [date], [created_at], [updated_at] are read-only. *)
Inductive Patch :=
| SetDuration (v : Z)
| SetFillerCount (v : Z)
| SetPacing (v : string)
| SetStatus (v : string)
| SetAudio (v : option string)
| SetTranscription (v : string)
| SetConfidence (v : option Q).

Definition status_choices : list string := ["pending"%string; "analyzed"%string; "archived"%string].

(** Field validation: [validate_duration], [validate_filler_count],
    [validate_confidence_score], the model's [MinValueValidator]s and the
    [ChoiceField] of [status]. *)
Definition patch_valid (p : Patch) : bool :=
  match p with
  | SetDuration v => (0 <? v) && (0 <=? v)
  | SetFillerCount v => 0 <=? v
  | SetStatus v => existsb (String.eqb v) status_choices
  | SetConfidence (Some q) => Qle_bool 0 q && Qle_bool q 1
  | _ => true
  end.

Definition apply_patch (s : SpeechSession) (p : Patch) : SpeechSession :=
  match p with
  | SetDuration v =>
      {| id := id s; user := user s; date := date s; duration := v;
         filler_count := filler_count s; pacing_analysis := pacing_analysis s;
         status := status s; audio_file := audio_file s;
         transcription := transcription s; confidence_score := confidence_score s;
         created_at := created_at s; updated_at := updated_at s |}
  | SetFillerCount v =>
      {| id := id s; user := user s; date := date s; duration := duration s;
         filler_count := v; pacing_analysis := pacing_analysis s;
         status := status s; audio_file := audio_file s;
         transcription := transcription s; confidence_score := confidence_score s;
         created_at := created_at s; updated_at := updated_at s |}
  | SetPacing v =>
      {| id := id s; user := user s; date := date s; duration := duration s;
         filler_count := filler_count s; pacing_analysis := v;
         status := status s; audio_file := audio_file s;
         transcription := transcription s; confidence_score := confidence_score s;
         created_at := created_at s; updated_at := updated_at s |}
  | SetStatus v =>
      {| id := id s; user := user s; date := date s; duration := duration s;
         filler_count := filler_count s; pacing_analysis := pacing_analysis s;
         status := v; audio_file := audio_file s;
         transcription := transcription s; confidence_score := confidence_score s;
         created_at := created_at s; updated_at := updated_at s |}
  | SetAudio v =>
      {| id := id s; user := user s; date := date s; duration := duration s;
         filler_count := filler_count s; pacing_analysis := pacing_analysis s;
         status := status s; audio_file := v;
         transcription := transcription s; confidence_score := confidence_score s;
         created_at := created_at s; updated_at := updated_at s |}
  | SetTranscription v =>
      {| id := id s; user := user s; date := date s; duration := duration s;
         filler_count := filler_count s; pacing_analysis := pacing_analysis s;
         status := status s; audio_file := audio_file s;
         transcription := v; confidence_score := confidence_score s;
         created_at := created_at s; updated_at := updated_at s |}
  | SetConfidence v =>
      {| id := id s; user := user s; date := date s; duration := duration s;
         filler_count := filler_count s; pacing_analysis := pacing_analysis s;
         status := status s; audio_file := audio_file s;
         transcription := transcription s; confidence_score := v;
         created_at := created_at s; updated_at := updated_at s |}
  end.

(** [serializer.is_valid()] then [serializer.save()] (which calls
    [Model.save()]). *)
Definition serializer_update (now : Z) (ps : list Patch) (s : SpeechSession)
  : option SpeechSession :=
  if forallb patch_valid ps then Some (save now (fold_left apply_patch ps s))
  else None.

(** ** Bulk update ([SpeechSessionViewSet.bulk_update]) *)

(** A JSON value of the request body, as the JSON parser hands it to the
    view: [null], [true]/[false], an int, a float (the finite double it
    parsed), a string, or an array or object, which only matters here
    through its Python [str()]. *)
Inductive JValue :=
| JNull
| JBool (b : bool)
| JInt (z : Z)
| JNum (q : Q)
| JStr (s : string)
| JCompound (py_str : string).

Definition allowed_fields : list string :=
  ["status"%string; "pacing_analysis"%string; "filler_count"%string;
   "confidence_score"%string].

Definition is_allowed (f : string) : bool := existsb (String.eqb f) allowed_fields.

(** The Python conversions of strings and floats that [QuerySet.update]
    relies on, left abstract: [int(s)] ([None] for [ValueError]),
    [float(s)] (strings naming [inf] or [nan] are outside the model) and
    [str(x)] of a float. *)
Record PyConv := mkPyConv {
  py_int_of_str : string -> option Z;
  py_float_of_str : string -> option Q;
  py_float_str : Q -> string
}.

(** [str(b)] of a Python bool. *)
Definition py_str_bool (b : bool) : string := if b then "True"%string else "False"%string.

(** [IntegerField.get_prep_value]: [int(v)] ([True] is 1, a float is
    truncated, an array or object raises [TypeError]); [None] stays
    [NULL], which the [NOT NULL] column refuses. *)
Definition int_prep (cv : PyConv) (v : JValue) : option Z :=
  match v with
  | JNull => None
  | JBool b => Some (if b then 1 else 0)
  | JInt z => Some z
  | JNum q => Some (Z.quot (Qnum q) (Zpos (Qden q)))
  | JStr x => py_int_of_str cv x
  | JCompound _ => None
  end.

(** [FloatField.get_prep_value] for the nullable [confidence_score]:
    [None] is stored as [NULL], anything else goes through [float(v)]. *)
Definition float_prep (cv : PyConv) (v : JValue) : option (option Q) :=
  match v with
  | JNull => Some None
  | JBool b => Some (Some (if b then 1 else 0)%Q)
  | JInt z => option_map Some (py_float_of_int z)
  | JNum q => Some (Some q)
  | JStr x => option_map Some (py_float_of_str cv x)
  | JCompound _ => None
  end.

(** [CharField] / [TextField.get_prep_value] ([to_python]): a string as
    it is, any other value through [str(v)]; [None] stays [NULL], which
    the [NOT NULL] column refuses. *)
Definition char_prep (cv : PyConv) (v : JValue) : option string :=
  match v with
  | JNull => None
  | JBool b => Some (py_str_bool b)
  | JInt z => Some (py_str_int z)
  | JNum q => Some (py_float_str cv q)
  | JStr x => Some x
  | JCompound r => Some r
  end.

(** [QuerySet.update] prepares every value for its column before the
    single SQL [UPDATE] runs; a conversion that raises aborts the request
    (a 500) before anything is written.  No field validator runs on this
    path, and the columns are taken to hold every value the conversions
    give (no integer overflow in the database). *)
Definition prep_field (cv : PyConv) (f : string) (v : JValue) : option Patch :=
  if String.eqb f "filler_count" then option_map SetFillerCount (int_prep cv v)
  else if String.eqb f "confidence_score" then option_map SetConfidence (float_prep cv v)
  else if String.eqb f "status" then option_map SetStatus (char_prep cv v)
  else if String.eqb f "pacing_analysis" then option_map SetPacing (char_prep cv v)
  else None.

(** The row update of [sessions.update] with the [updates] dict.  The body's object is
    parsed into a dict, in which a later duplicate key replaces an earlier
    one: an entry whose key comes again later is not part of the update. *)
Fixpoint prep_updates (cv : PyConv) (ups : list (string * JValue))
  : option (SpeechSession -> SpeechSession) :=
  match ups with
  | [] => Some (fun s => s)
  | (f, v) :: r =>
      if existsb (fun kv => String.eqb (fst kv) f) r then prep_updates cv r
      else
        match prep_field cv f v, prep_updates cv r with
        | Some p, Some h => Some (fun s => h (apply_patch s p))
        | _, _ => None
        end
  end.

(** [self.get_queryset().filter(id__in=session_ids)]. *)
Definition selected (u : Z) (session_ids : list Z) (s : SpeechSession) : bool :=
  (user s =? u) && existsb (Z.eqb (id s)) session_ids.

Definition bulk_update (cv : PyConv) (a : Actor) (session_ids : list Z)
    (updates : list (string * JValue)) (st : Store) : Response * Store :=
  match api_permission a with
  | Some r => (r, st)
  | None =>
    match session_ids, updates with
    | [], _ | _, [] => (err 400 "Both session_ids and updates are required", st)
    | _, _ =>
      let sessions := filter (selected (actor_id a) session_ids) st in
      match sessions with
      | [] => (err 404 "No valid sessions found", st)
      | _ =>
        if existsb (fun kv => negb (is_allowed (fst kv))) updates
        then (err 400 "Invalid fields for bulk update", st)
        else
          match prep_updates cv updates with
          | None => (err 500 "database error", st)
          | Some g =>
              (mkResp 200 (PCount (Z.of_nat (length sessions))),
               map (fun s => if selected (actor_id a) session_ids s then g s else s) st)
          end
      end
    end
  end.

(** ** Detail actions of the API and of the pages *)

Section Views.

(** [hash(str(session.id))]: Python's string hash, seeded per process. *)
Variable hash_id : Z -> Z.
(** [timezone.now().strftime('%Y-%m-%d %H:%M')]. *)
Variable strftime_minutes : Z -> string.

(** [confidence_score or 0.8]: Python truthiness, so [None] and [0.0] both
    give the default. *)
Definition confidence_base (c : option Q) : Q :=
  match c with
  | None => (4 # 5)%Q
  | Some q => if Qeq_bool q 0 then (4 # 5)%Q else q
  end.

Definition Qmin_py (x y : Q) : Q := if Qle_bool x y then x else y.
Definition Qmax_py (x y : Q) : Q := if Qle_bool y x then x else y.

Definition reanalyze_offsets : list Z := [-2; -1; 0; 1; 2].

(** Lines 258-262 of [reanalyze]. *)
Definition reanalyze_session (now : Z) (s : SpeechSession) : SpeechSession :=
  let d := nth (Z.to_nat (hash_id (id s) mod 5)) reanalyze_offsets 0 in
  save now
    {| id := id s; user := user s; date := date s; duration := duration s;
       filler_count := Z.max 0 (filler_count s + d);
       pacing_analysis := ("Re-analyzed on " ++ strftime_minutes now ++ ": "
                           ++ pacing_analysis s)%string;
       status := "analyzed"; audio_file := audio_file s;
       transcription := transcription s;
       confidence_score :=
         Some (Qmin_py 1 (Qmax_py 0 (confidence_base (confidence_score s) + (1 # 20))));
       created_at := created_at s; updated_at := updated_at s |}.

Inductive ApiDetail :=
| Retrieve
| Update (ps : list Patch)
| Destroy
| Reanalyze.

(** [/api/sessions/{pk}/...]: permission check, [get_object], then the
    action. *)
Definition api_detail (a : Actor) (pk : Z) (act : ApiDetail) (now : Z) (st : Store)
  : Response * Store :=
  match api_permission a with
  | Some r => (r, st)
  | None =>
    match get_object a pk st with
    | inr r => (r, st)
    | inl s =>
      match act with
      | Retrieve => (mkResp 200 (PSession s), st)
      | Update ps =>
          match serializer_update now ps s with
          | None => (err 400 "validation error", st)
          | Some s' => (mkResp 200 (PSession s'), store_put s' st)
          end
      | Destroy => (mkResp 204 PNone, store_delete (id s) st)
      | Reanalyze =>
          match audio_file s with
          | None => (err 400 "No audio file available for analysis", st)
          | Some _ =>
              let s' := reanalyze_session now s in
              (mkResp 200 (PSession s'), store_put s' st)
          end
      end
    end
  end.

End Views.

(** [GET /api/sessions/] ([ModelViewSet.list]): the permission check, then
    [filter_queryset(get_queryset())].  The filter backends
    ([DjangoFilterBackend], [OrderingFilter], [SearchFilter]) and any
    paginator the settings configure act on the actor's rows according to
    the query string; together they are the parameter [filter_queryset]. *)
Definition api_list (filter_queryset : list SpeechSession -> list SpeechSession)
    (a : Actor) (st : Store) : Response + list SpeechSession :=
  match api_permission a with
  | Some r => inl r
  | None => inr (filter_queryset (owned (actor_id a) st))
  end.

(** [GET /api/sessions/analytics/]: the permission check, then the
    [analytics] action on the actor's rows. *)
Definition api_analytics (a : Actor) (now1 now2 : Z) (st : Store) : Response + Analytics :=
  match api_permission a with
  | Some r => inl r
  | None => inr (analytics now1 now2 (actor_id a) st)
  end.

(** ** Page views ([views.py]) *)

(** The analysis text the placeholder analysis stores. *)
Definition simulated_pacing : string :=
  "Simulated analysis: Good pacing with occasional slow segments. Average speaking rate detected.".


(** [@login_required] then [@require_2fa_if_enabled]. *)
Definition page_gate (a : Actor) : option Response :=
  if negb (is_authenticated a) then Some (mkResp 302 (PRedirect "login"))
  else if is_2fa_enabled a && negb (has_2fa_setup a)
  then Some (mkResp 302 (PRedirect "coach:setup_2fa"))
  else None.

(** Requests to [session_detail_view], [session_update_view] and
    [session_delete_view].  The update form ([SpeechSessionUpdateForm],
    in [forms.py]) is represented by its outcome: [None] when
    [form.is_valid()] fails, otherwise its cleaned fields. *)
Inductive PageDetail :=
| DetailGet
| UpdateGet
| UpdatePost (form : option (list Patch))
| DeleteGet
| DeletePost.

Definition page_detail (a : Actor) (pk : Z) (act : PageDetail) (now : Z) (st : Store)
  : Response * Store :=
  match page_gate a with
  | Some r => (r, st)
  | None =>
    (* get_object_or_404(SpeechSession, pk=pk, user=request.user) *)
    match find_by_id pk (owned (actor_id a) st) with
    | None => (err 404 "No SpeechSession matches the given query.", st)
    | Some s =>
      match act with
      | DetailGet | UpdateGet | DeleteGet => (mkResp 200 (PSession s), st)
      | UpdatePost None => (mkResp 200 (PSession s), st)
      | UpdatePost (Some ps) =>
          let s' := save now (fold_left apply_patch ps s) in
          (mkResp 302 (PRedirect "speech_sessions:session_detail"), store_put s' st)
      | DeletePost =>
          (mkResp 302 (PRedirect "speech_sessions:session_list"), store_delete (id s) st)
      end
    end
  end.

(** Requests to [session_create_view].  The create form
    ([SpeechSessionCreateForm], in [forms.py]) is represented by its
    outcome: [None] when [form.is_valid()] fails, otherwise the unsaved
    instance of [form.save(commit=False)]; its [id], [user], [date] and
    timestamps are set below. *)
Inductive CreateRequest :=
| CreateGet
| CreatePost (form : option SpeechSession).

(** A valid form is saved for the actor, with the simulated analysis when
    an audio file is attached; [save] gives the row the id [pk] chosen by
    the database and stamps [date], [created_at] and [updated_at]. *)
Definition session_create_view (a : Actor) (req : CreateRequest) (pk now : Z) (st : Store)
  : Response * Store :=
  match page_gate a with
  | Some r => (r, st)
  | None =>
    match req with
    | CreateGet | CreatePost None => (mkResp 200 PNone, st)
    | CreatePost (Some s) =>
        let session :=
          match audio_file s with
          | None => s
          | Some _ =>
              {| id := id s; user := user s; date := date s; duration := duration s;
                 filler_count := 5; pacing_analysis := simulated_pacing;
                 status := "analyzed"; audio_file := audio_file s;
                 transcription := transcription s;
                 confidence_score := Some (17 # 20)%Q;
                 created_at := created_at s; updated_at := updated_at s |}
          end in
        let session :=
          {| id := pk; user := actor_id a; date := now; duration := duration session;
             filler_count := filler_count session;
             pacing_analysis := pacing_analysis session; status := status session;
             audio_file := audio_file session; transcription := transcription session;
             confidence_score := confidence_score session;
             created_at := now; updated_at := now |} in
        (mkResp 302 (PRedirect "speech_sessions:session_detail"), st ++ [session])
    end
  end.

(** [status = 'archived'] as a [QuerySet.update]: no [save], so
    [updated_at] is not touched. *)
Definition set_status (v : string) (s : SpeechSession) : SpeechSession :=
  apply_patch s (SetStatus v).

(** [session_bulk_action_view]: body [{action, session_ids}]. *)
Definition session_bulk_action_view (a : Actor) (action : option string)
    (session_ids : list Z) (st : Store) : Response * Store :=
  match page_gate a with
  | Some r => (r, st)
  | None =>
    match action, session_ids with
    | None, _ | Some EmptyString, _ | _, [] =>
        (err 400 "Missing action or session IDs", st)
    | Some act, _ =>
      let sel := selected (actor_id a) session_ids in
      let count := Z.of_nat (length (filter sel st)) in
      if count =? 0 then (err 404 "No valid sessions found", st)
      else if String.eqb act "delete" then
        (mkResp 200 (PCount count), filter (fun s => negb (sel s)) st)
      else if String.eqb act "archive" then
        (mkResp 200 (PCount count), map (fun s => if sel s then set_status "archived" s else s) st)
      else if String.eqb act "mark_analyzed" then
        (mkResp 200 (PCount count), map (fun s => if sel s then set_status "analyzed" s else s) st)
      else (err 400 "Invalid action", st)
    end
  end.

(** ** Session list ([session_list_view]) *)

(** Modelled from the spec: the cleaned data of [SpeechSessionFilterForm]
    ([forms.py], not among the sources): an optional status, an optional
    date range given as day numbers (days since the epoch), and an optional
    search term; a blank field is absent. *)
Record FilterData := mkFilter {
  f_status : option string;
  date_from : option Z;
  date_to : option Z;
  search : option string
}.

(** [date__date]: the calendar day of a timestamp (UTC). *)
Definition day_of (t : Z) : Z := t / seconds_per_day.

Definition ascii_lower (c : ascii) : ascii :=
  let n := nat_of_ascii c in
  if (65 <=? n)%nat && (n <=? 90)%nat then ascii_of_nat (n + 32) else c.

Fixpoint lower (s : string) : string :=
  match s with
  | EmptyString => EmptyString
  | String c r => String (ascii_lower c) (lower r)
  end.

Fixpoint is_substring (p s : string) : bool :=
  prefix p s || match s with EmptyString => false | String _ r => is_substring p r end.

(** [field__icontains=term]. *)
Definition icontains (field term : string) : bool :=
  is_substring (lower term) (lower field).

(** Python truthiness of an optional string: [None] and [''] are false. *)
Definition truthy (o : option string) : option string :=
  match o with
  | None | Some EmptyString => None
  | Some v => Some v
  end.

(** Lines 47-66: the filters applied when the form is valid. *)
Definition apply_filters (fd : FilterData) (l : list SpeechSession) : list SpeechSession :=
  let l := match truthy (f_status fd) with
           | Some v => filter (fun s => String.eqb (status s) v) l
           | None => l end in
  let l := match date_from fd with
           | Some d => filter (fun s => d <=? day_of (date s)) l
           | None => l end in
  let l := match date_to fd with
           | Some d => filter (fun s => day_of (date s) <=? d) l
           | None => l end in
  match truthy (search fd) with
  | Some q => filter (fun s => icontains (transcription s) q
                               || icontains (pacing_analysis s) q) l
  | None => l
  end.

(** [order_by('-date')]. *)
Fixpoint insert_by_date_desc (s : SpeechSession) (l : list SpeechSession) :=
  match l with
  | [] => [s]
  | x :: r => if date x <=? date s then s :: l else x :: insert_by_date_desc s r
  end.

Fixpoint sort_by_date_desc (l : list SpeechSession) : list SpeechSession :=
  match l with
  | [] => []
  | x :: r => insert_by_date_desc x (sort_by_date_desc r)
  end.

(** Lines 41-69; [form = None] when [filter_form.is_valid()] fails. *)
Definition session_list_queryset (u : Z) (form : option FilterData) (st : Store)
  : list SpeechSession :=
  let sessions := owned u st in
  let sessions := match form with Some fd => apply_filters fd sessions | None => sessions end in
  sort_by_date_desc sessions.

Definition page_size : nat := 10.

(** [Paginator(items, 10).get_page(n)]: a missing or non-integer [n] gives
    page 1, an out-of-range one the last page. *)
Definition get_page {A} (page_number : option Z) (items : list A) : list A :=
  let n := Z.of_nat (length items) in
  let num_pages := if n =? 0 then 1 else (n + 9) / 10 in
  let p := match page_number with
           | None => 1
           | Some k => if (k <? 1) || (num_pages <? k) then num_pages else k
           end in
  firstn page_size (skipn (Z.to_nat ((p - 1) * 10)) items).

Definition session_list_view (a : Actor) (form : option FilterData)
    (page_number : option Z) (st : Store) : Response + list SpeechSession :=
  match page_gate a with
  | Some r => inl r
  | None => inr (get_page page_number (session_list_queryset (actor_id a) form st))
  end.

(** The list contract as the spec words it: owner, then each supplied
    filter (status equality, day range inclusive at both ends,
    case-insensitive substring in transcription or pacing analysis). *)
Definition spec_matches (fd : FilterData) (s : SpeechSession) : bool :=
  match truthy (f_status fd) with Some v => String.eqb (status s) v | None => true end
  && match date_from fd with Some d => d <=? day_of (date s) | None => true end
  && match date_to fd with Some d => day_of (date s) <=? d | None => true end
  && match truthy (search fd) with
     | Some q => icontains (transcription s) q || icontains (pacing_analysis s) q
     | None => true end.

(** ** Model properties and admin display ([models.py], [admin.py]) *)

(** [SpeechSession.filler_rate]: fillers per minute, 0 for a zero
    duration. *)
Definition filler_rate (s : SpeechSession) : Q :=
  if duration s =? 0 then 0%Q
  else (inject_Z (filler_count s) / inject_Z (duration s) * 60)%Q.

(** [int(x)] of a Python float: truncation toward zero. *)
Definition py_int (x : Q) : Z := Z.quot (Qnum x) (Zpos (Qden x)).

(** [SpeechSessionAdmin.confidence_display]: [None] is the ['-'] shown for
    an unset score; otherwise the percentage [int(score * 100)] (the
    float product, rounded to a double, then truncated) and its colour. *)
Definition confidence_display (c : option Q) : option (Z * string) :=
  match c with
  | None => None
  | Some q =>
      let percentage := py_int (round_double (q * 100)) in
      Some (percentage,
            if 80 <=? percentage then "#10B981"%string
            else if 60 <=? percentage then "#F59E0B"%string
            else "#EF4444"%string)
  end.

(** ** Page analytics ([session_analytics_view]) *)

Record PageAnalytics := mkPageAnalytics {
  pa_total_sessions : Z;
  pa_total_duration : Z;
  pa_avg_duration : Q;
  pa_total_fillers : Z;
  pa_avg_fillers : Q;
  pa_recent_sessions_count : Z;
  pa_analyzed_sessions_count : Z;
  pa_pending_sessions_count : Z;
  pa_archived_sessions_count : Z
}.

Definition count_status (v : string) (l : list SpeechSession) : Z :=
  Z.of_nat (length (filter (fun s => String.eqb (status s) v) l)).

(** The template context of [session_analytics_view]. *)
Definition session_analytics_context (now : Z) (u : Z) (st : Store) : PageAnalytics :=
  let sessions := owned u st in
  let total_sessions := Z.of_nat (length sessions) in
  let total_duration := sum_Z (map duration sessions) in
  let avg_duration := if 0 <? total_sessions
                      then (inject_Z total_duration / inject_Z total_sessions)%Q
                      else 0%Q in
  let analyzed_sessions := filter is_analyzed sessions in
  let total_fillers := sum_Z (map filler_count analyzed_sessions) in
  let analyzed_count := Z.of_nat (length analyzed_sessions) in
  let avg_fillers := if 0 <? analyzed_count
                     then (inject_Z total_fillers / inject_Z analyzed_count)%Q
                     else 0%Q in
  {| pa_total_sessions := total_sessions;
     pa_total_duration := total_duration;
     pa_avg_duration := avg_duration;
     pa_total_fillers := total_fillers;
     pa_avg_fillers := avg_fillers;
     pa_recent_sessions_count := Z.of_nat (length (recent_window now sessions));
     pa_analyzed_sessions_count := analyzed_count;
     pa_pending_sessions_count := count_status "pending" sessions;
     pa_archived_sessions_count := count_status "archived" sessions |}.

Definition session_analytics_view (a : Actor) (now : Z) (st : Store)
  : Response + PageAnalytics :=
  match page_gate a with
  | Some r => inl r
  | None => inr (session_analytics_context now (actor_id a) st)
  end.

(** ** Creation through the API ([SpeechSessionCreateSerializer]) *)

(** [POST /api/sessions/]: [validate_duration] (and the model's
    [MinValueValidator(0)]), then [perform_create] / [create]:
    [objects.create] with the body's [duration], [audio_file],
    [transcription] and the field defaults, then the simulated analysis
    and a second [save] when an audio file is attached.  [pk] is the id the
    database assigns to the new row. *)
Definition api_create (a : Actor) (pk now : Z) (dur : Z) (audio : option string)
    (transcription : string) (st : Store) : Response * Store :=
  match api_permission a with
  | Some r => (r, st)
  | None =>
    if (0 <? dur) && (0 <=? dur) then
      let session :=
        {| id := pk; user := actor_id a; date := now; duration := dur;
           filler_count := 0; pacing_analysis := ""; status := "pending";
           audio_file := audio; transcription := transcription;
           confidence_score := None; created_at := now; updated_at := now |} in
      let session :=
        match audio with
        | None => session
        | Some _ =>
            save now
              {| id := id session; user := user session; date := date session;
                 duration := duration session; filler_count := 5;
                 pacing_analysis := simulated_pacing; status := "analyzed";
                 audio_file := audio_file session;
                 transcription := transcription;
                 confidence_score := Some (17 # 20)%Q;
                 created_at := created_at session; updated_at := updated_at session |}
        end in
      (mkResp 201 PNone, st ++ [session])
    else (err 400 "Duration must be greater than 0 seconds.", st)
  end.

(** ** Helpers for stating properties *)

(** [Paginator.num_pages] for [per_page = 10] and an allowed empty first
    page (the value [get_page] computes). *)
Definition paginator_num_pages (n : nat) : Z :=
  if Z.of_nat n =? 0 then 1 else (Z.of_nat n + 9) / 10.

(** Python [dict.get] on the [sessions_by_status] dict. *)
Fixpoint dict_get (k : string) (m : list (string * Z)) : option Z :=
  match m with
  | [] => None
  | (k', n) :: r => if String.eqb k k' then Some n else dict_get k r
  end.

(** The rows of users other than [u]. *)
Definition foreign (u : Z) (st : Store) : Store :=
  filter (fun s => negb (user s =? u)) st.

(** The field bounds of the model and its serializer: positive duration,
    non-negative filler count, confidence unset or within [0, 1]. *)
Definition confidence_ok (c : option Q) : Prop :=
  match c with None => True | Some q => (0 <= q <= 1)%Q end.

Definition session_invariant (s : SpeechSession) : Prop :=
  0 < duration s /\ 0 <= filler_count s /\ confidence_ok (confidence_score s).

(** ** Display helpers ([models.py], [admin.py]) *)

Definition digit_char (n : Z) : ascii := ascii_of_nat (48 + Z.to_nat n).

(** [f"{n:02d}"] for [0 <= n < 100], the range of [seconds] below. *)
Definition pad2 (n : Z) : string :=
  String (digit_char (n / 10)) (String (digit_char (n mod 10)) EmptyString).

(** [SpeechSession.duration_minutes]; Python's [//] and [%] round toward
    negative infinity, as [Z.div] and [Z.modulo] do. *)
Definition duration_minutes (d : Z) : string :=
  let minutes := d / 60 in
  let seconds := d mod 60 in
  (py_str_int minutes ++ ":" ++ pad2 seconds)%string.

(** [SpeechSession.get_status_display_class]. *)
Definition get_status_display_class (st : string) : string :=
  if String.eqb st "pending" then "bg-yellow-100 text-yellow-800"%string
  else if String.eqb st "analyzed" then "bg-green-100 text-green-800"%string
  else if String.eqb st "archived" then "bg-gray-100 text-gray-800"%string
  else "bg-gray-100 text-gray-800"%string.

(** The colour of [SpeechSessionAdmin.status_badge]. *)
Definition status_badge_colour (st : string) : string :=
  if String.eqb st "pending" then "#FCD34D"%string
  else if String.eqb st "analyzed" then "#10B981"%string
  else if String.eqb st "archived" then "#6B7280"%string
  else "#6B7280"%string.

(** Reading a [duration_minutes] text back: the integer before the last
    three characters, then the two digits after the colon. *)
Definition digit_val (c : ascii) : Z := Z.of_nat (nat_of_ascii c) - 48.

Definition parse_pad2 (t : string) : option Z :=
  match t with
  | String a (String b EmptyString) => Some (10 * digit_val a + digit_val b)
  | _ => None
  end.

Definition parse_duration_minutes (t : string) : option Z :=
  let n := String.length t in
  match NilZero.int_of_string (substring 0 (n - 3) t), parse_pad2 (substring (n - 2) 2 t) with
  | Some m, Some s => Some (Z.of_int m * 60 + s)
  | _, _ => None
  end.

(** ** Sample rows used by the concrete checks below *)

Definition sample (pk owner when dur fillers : Z) (st : string) (audio : option string)
  (conf : option Q) : SpeechSession :=
  {| id := pk; user := owner; date := when; duration := dur; filler_count := fillers;
     pacing_analysis := "steady"; status := st; audio_file := audio;
     transcription := "um hello"; confidence_score := conf;
     created_at := when; updated_at := when |}.

(** Owner 1: two analyzed sessions (60 s, 6 fillers; 120 s, 3 fillers)
    and one pending session with 100 fillers; owner 2: one session. *)
Definition example_store : Store :=
  [sample 1 1 1000 60 6 "analyzed" None None;
   sample 2 1 2000 120 3 "analyzed" None None;
   sample 3 1 3000 30 100 "pending" None None;
   sample 4 2 4000 50 9 "analyzed" None None].

Definition owner1 : Actor := mkActor 1 true false false false.

(** A sample of the string conversions, for the concrete checks: decimal
    digits with an optional fraction, read as an int when there is no
    fraction and as a float (rounded to a double) always; [str()] of a
    float is right for the integral ones ([5.0] gives ["5.0"]). *)
Fixpoint dec_digits (t : string) (acc : Z) (frac : option Z) : option (Z * option Z) :=
  match t with
  | EmptyString => Some (acc, frac)
  | String c r =>
      if Ascii.eqb c "." then
        match frac with None => dec_digits r acc (Some 0) | Some _ => None end
      else
        let d := digit_val c in
        if (0 <=? d) && (d <=? 9) then dec_digits r (10 * acc + d) (option_map Z.succ frac)
        else None
  end.

Definition sample_int_of_str (t : string) : option Z :=
  match t, dec_digits t 0 None with
  | EmptyString, _ => None
  | _, Some (m, None) => Some m
  | _, _ => None
  end.

Definition sample_float_of_str (t : string) : option Q :=
  match t, dec_digits t 0 None with
  | EmptyString, _ => None
  | _, Some (m, k) =>
      Some (round_double (inject_Z m / inject_Z (10 ^ match k with None => 0 | Some j => j end)))
  | _, None => None
  end.

Definition sample_conv : PyConv :=
  mkPyConv sample_int_of_str sample_float_of_str
    (fun q => (py_str_int (Z.quot (Qnum q) (Zpos (Qden q))) ++ ".0")%string).

(** * Properties *)

(** ** Analytics *)

Lemma Qltb_spec (x y : Q) : Qltb x y = true <-> (x < y)%Q.
Proof.
  unfold Qltb. rewrite negb_true_iff. split; intro H.
  - apply Qnot_le_lt. intro Hle. apply Qle_bool_iff in Hle. congruence.
  - destruct (Qle_bool y x) eqn:E; [|reflexivity].
    apply Qle_bool_iff in E. exfalso. apply (Qlt_not_le x y H E).
Qed.

Lemma py_round2_zero : py_round2 0 == 0.
Proof. reflexivity. Qed.

Lemma length_zero_nil {A} (l : list A) : (Z.of_nat (length l) =? 0) = true -> l = [].
Proof. destruct l as [|x r]; [reflexivity|]. intro H. apply Z.eqb_eq in H. simpl in H. lia. Qed.




(** ** Session list *)

Definition date_desc (x y : SpeechSession) : Prop := date y <= date x.

Lemma insert_by_date_desc_perm s l :
  Permutation (insert_by_date_desc s l) (s :: l).
Proof.
  induction l as [|x r IH]; simpl; [reflexivity|].
  destruct (date x <=? date s); [reflexivity|].
  transitivity (x :: s :: r); [constructor; exact IH | apply perm_swap].
Qed.

Lemma sort_by_date_desc_perm l : Permutation (sort_by_date_desc l) l.
Proof.
  induction l as [|x r IH]; simpl; [reflexivity|].
  rewrite insert_by_date_desc_perm. constructor. exact IH.
Qed.

Lemma insert_by_date_desc_head x s r :
  HdRel date_desc x r -> date_desc x s -> HdRel date_desc x (insert_by_date_desc s r).
Proof.
  intros Hr Hs. destruct r as [|y r']; simpl.
  - constructor. exact Hs.
  - destruct (date y <=? date s); constructor; [exact Hs|].
    inversion Hr; assumption.
Qed.

Lemma insert_by_date_desc_sorted s l :
  Sorted date_desc l -> Sorted date_desc (insert_by_date_desc s l).
Proof.
  induction l as [|x r IH]; simpl; intro H.
  - repeat constructor.
  - apply Sorted_inv in H as [Hr Hhd].
    destruct (date x <=? date s) eqn:E.
    + constructor; [constructor; assumption|]. constructor.
      unfold date_desc. apply Z.leb_le in E. exact E.
    + constructor; [apply IH; exact Hr|].
      apply insert_by_date_desc_head; [exact Hhd|].
      unfold date_desc. apply Z.leb_gt in E. lia.
Qed.

Lemma sort_by_date_desc_sorted l : Sorted date_desc (sort_by_date_desc l).
Proof.
  induction l as [|x r IH]; simpl; [constructor|].
  apply insert_by_date_desc_sorted. exact IH.
Qed.

Ltac split_filter_atoms :=
  repeat match goal with
  | H : ?b = true |- context [?b] => rewrite H
  | H : ?b = false |- context [?b] => rewrite H
  | |- context [String.eqb ?a ?b] => let E := fresh "E" in destruct (String.eqb a b) eqn:E
  | |- context [Z.leb ?a ?b] => let E := fresh "E" in destruct (Z.leb a b) eqn:E
  | |- context [icontains ?a ?b] => let E := fresh "E" in destruct (icontains a b) eqn:E
  end.

Lemma apply_filters_spec fd l : apply_filters fd l = filter (spec_matches fd) l.
Proof.
  unfold apply_filters, spec_matches; cbv zeta.
  destruct (truthy (f_status fd)), (date_from fd), (date_to fd), (truthy (search fd));
    induction l as [|x r IH]; try reflexivity; simpl in *;
    repeat progress (split_filter_atoms; simpl); congruence.
Qed.

Lemma owned_filter u l (p : SpeechSession -> bool) :
  filter p (owned u l) = filter (fun s => (user s =? u) && p s) l.
Proof.
  induction l as [|x r IH]; simpl; [reflexivity|].
  destruct (user x =? u); simpl; [destruct (p x); simpl|]; congruence.
Qed.

Lemma in_get_page {A} n (l : list A) x : In x (get_page n l) -> In x l.
Proof.
  unfold get_page. cbv zeta. match goal with |- context [skipn ?k l] => generalize k end. intros k H.
  assert (Hs : In x (skipn k l)).
  { rewrite <- (firstn_skipn page_size (skipn k l)). apply in_or_app. left. exact H. }
  rewrite <- (firstn_skipn k l). apply in_or_app. right. exact Hs.
Qed.

Lemma get_page_length {A} n (l : list A) : (length (get_page n l) <= 10)%nat.
Proof. unfold get_page. apply firstn_le_length. Qed.

(** C6: for an actor the page guards let through, the list view's ordered
    result set is exactly (as a multiset) the actor's rows satisfying every
    supplied filter (status equality; creation day within the range,
    inclusive at both ends; case-insensitive substring of the search term
    in the transcription or the pacing analysis), absent or blank inputs
    adding no condition; it is ordered by date, newest first; the page
    shown is the requested slice of 10 of it, so no row of another owner
    appears.  When the filter form is invalid the filters are skipped and
    the result set is all of the actor's rows, newest first; whatever the
    form and the page number, no row of another owner is ever shown. *)
Theorem session_list_view_contract :
  forall a fd page_number st,
    page_gate a = None ->
    let results := session_list_queryset (actor_id a) (Some fd) st in
    Permutation results (filter (fun s => (user s =? actor_id a) && spec_matches fd s) st)
    /\ Sorted date_desc results
    /\ session_list_view a (Some fd) page_number st = inr (get_page page_number results)
    /\ (length (get_page page_number results) <= 10)%nat
    /\ (forall s, In s (get_page page_number results) -> user s = actor_id a)
    /\ Permutation (session_list_queryset (actor_id a) None st) (owned (actor_id a) st)
    /\ Sorted date_desc (session_list_queryset (actor_id a) None st)
    /\ (forall form pn ss, session_list_view a form pn st = inr ss ->
          forall s, In s ss -> user s = actor_id a).
Proof.
  intros a fd page_number st Hgate results.
  assert (Hperm : Permutation results
                    (filter (fun s => (user s =? actor_id a) && spec_matches fd s) st)).
  { subst results. unfold session_list_queryset; cbv zeta.
    rewrite sort_by_date_desc_perm, apply_filters_spec, owned_filter. reflexivity. }
  split; [exact Hperm|].
  split; [apply sort_by_date_desc_sorted|].
  split; [unfold session_list_view; rewrite Hgate; reflexivity|].
  split; [apply get_page_length|].
  split.
  { intros s Hs. apply in_get_page in Hs.
    apply (Permutation_in _ Hperm), filter_In in Hs as [_ Hs].
    apply andb_true_iff in Hs as [Hs _]. apply Z.eqb_eq. exact Hs. }
  split; [apply sort_by_date_desc_perm|].
  split; [apply sort_by_date_desc_sorted|].
  intros form pn ss Hv s Hs.
  unfold session_list_view in Hv. rewrite Hgate in Hv. injection Hv as <-.
  apply in_get_page in Hs. unfold session_list_queryset in Hs; cbv zeta in Hs.
  apply (Permutation_in _ (sort_by_date_desc_perm _)) in Hs.
  destruct form as [fd'|];
    [rewrite apply_filters_spec in Hs; apply filter_In in Hs as [Hs _]|];
    unfold owned in Hs; apply filter_In in Hs as [_ Hs]; apply Z.eqb_eq; exact Hs.
Qed.

Lemma session_list_view_contract_witness :
  page_gate owner1 = None /\
  session_list_view owner1 (Some (mkFilter (Some "analyzed"%string) None None (Some "UM"%string)))
    None example_store =
  inr [sample 2 1 2000 120 3 "analyzed" None None; sample 1 1 1000 60 6 "analyzed" None None].
Proof.
  split; [reflexivity|].
  destruct (session_list_view_contract owner1
              (mkFilter (Some "analyzed"%string) None None (Some "UM"%string)) None example_store
              eq_refl) as (_ & _ & H & _).
  rewrite H. vm_compute. reflexivity.
Defined.

(** ** Ownership of detail actions *)

Lemma find_by_id_some pk l x : find_by_id pk l = Some x -> In x l /\ id x = pk.
Proof.
  induction l as [|y r IH]; simpl; [discriminate|].
  destruct (id y =? pk) eqn:E.
  - intro H. injection H as <-. split; [left; reflexivity | apply Z.eqb_eq; exact E].
  - intro H. destruct (IH H) as [Hi Hid]. split; [right; exact Hi | exact Hid].
Qed.

Lemma find_by_id_none pk l : (forall s, In s l -> id s <> pk) -> find_by_id pk l = None.
Proof.
  induction l as [|y r IH]; simpl; intro H; [reflexivity|].
  destruct (id y =? pk) eqn:E.
  - apply Z.eqb_eq in E. exfalso. exact (H y (or_introl eq_refl) E).
  - apply IH. intros s Hs. exact (H s (or_intror Hs)).
Qed.

Lemma in_owned u st s : In s (owned u st) <-> In s st /\ user s = u.
Proof.
  unfold owned. rewrite filter_In. rewrite Z.eqb_eq. reflexivity.
Qed.





(** ** Bulk update *)

(** C5 (as amended): a bulk update whose [updates] map names a field
    outside [status], [pacing_analysis], [filler_count],
    [confidence_score] modifies no session.  For an actor that passes the
    permission check the answer is 400 when [session_ids] is empty or some
    of them match the actor's rows, and 404 when none match: the ownership
    match is checked before the field names. *)
Theorem bulk_update_rejects_disallowed_fields :
  forall cv a session_ids updates st,
    existsb (fun kv => negb (is_allowed (fst kv))) updates = true ->
    snd (bulk_update cv a session_ids updates st) = st
    /\ (api_permission a = None ->
        code (fst (bulk_update cv a session_ids updates st)) =
          match session_ids, filter (selected (actor_id a) session_ids) st with
          | [], _ => 400
          | _, [] => 404
          | _, _ => 400
          end).
Proof.
  intros cv a session_ids updates st Hbad.
  unfold bulk_update.
  destruct (api_permission a) as [r|]; [split; [reflexivity | discriminate]|].
  destruct session_ids as [|i is]; [split; reflexivity|].
  destruct updates as [|kv ups]; [discriminate|].
  destruct (filter (selected (actor_id a) (i :: is)) st) as [|x xs];
    [split; reflexivity|].
  rewrite Hbad. split; reflexivity.
Qed.

Lemma bulk_update_rejects_disallowed_fields_witness :
  existsb (fun kv => negb (is_allowed (fst kv))) [("duration"%string, JInt 5)] = true /\
  snd (bulk_update sample_conv owner1 [1] [("duration"%string, JInt 5)] example_store)
    = example_store /\
  code (fst (bulk_update sample_conv owner1 [1] [("duration"%string, JInt 5)] example_store))
    = 400.
Proof.
  destruct (bulk_update_rejects_disallowed_fields sample_conv owner1 [1] [("duration"%string, JInt 5)]
              example_store eq_refl) as [Hst Hcode].
  split; [reflexivity|]. split; [exact Hst|].
  rewrite (Hcode eq_refl). reflexivity.
Defined.

(** C5 counterexample: a disallowed field with an id the actor does not
    own is answered 404, not 400. *)
Lemma bulk_update_disallowed_field_foreign_id_404 :
  code (fst (bulk_update sample_conv owner1 [4] [("duration"%string, JInt 5)] example_store))
    = 404.
Proof. reflexivity. Qed.



(** ** Re-analyze *)





(** ** Field bounds and timestamps on the bulk paths *)

(** C3 (code defect): the owner of session 1 sends [{"session_ids": [1],
    "updates": {"filler_count": -3, "confidence_score": 1.5}}]; the bulk
    update answers 200 and stores [filler_count = -3] and
    [confidence_score = 1.5], values the serializer's validators reject on
    the edit path. *)
Theorem bulk_update_stores_out_of_range_values :
  forall cv,
  let updates := [("filler_count"%string, JInt (-3)); ("confidence_score"%string, JNum (3 # 2))] in
  code (fst (bulk_update cv owner1 [1] updates example_store)) = 200
  /\ option_map (fun s => (filler_count s, confidence_score s))
       (find_by_id 1 (snd (bulk_update cv owner1 [1] updates example_store)))
     = Some (-3, Some (3 # 2)%Q)
  /\ fst (api_detail (fun _ => 0) (fun _ => ""%string) owner1 1
            (Update [SetFillerCount (-3)]) 0 example_store) = err 400 "validation error"
  /\ fst (api_detail (fun _ => 0) (fun _ => ""%string) owner1 1
            (Update [SetConfidence (Some (3 # 2)%Q)]) 0 example_store) = err 400 "validation error".
Proof. intros cv. repeat split; reflexivity. Qed.

(** C9 (code defect): the bulk paths change a session with
    [QuerySet.update], which bypasses [save], so [updated_at] keeps its old
    value (3000 here) although the status changed; the edit path, which
    saves, stamps it with the time of the edit (5000). *)
Theorem bulk_paths_leave_updated_at :
  forall cv,
  option_map (fun s => (status s, updated_at s))
    (find_by_id 3 (snd (session_bulk_action_view owner1 (Some "archive"%string) [3] example_store)))
    = Some ("archived"%string, 3000)
  /\ option_map (fun s => (status s, updated_at s))
    (find_by_id 3 (snd (bulk_update cv owner1 [3] [("status"%string, JStr "analyzed")] example_store)))
    = Some ("analyzed"%string, 3000)
  /\ option_map (fun s => (status s, updated_at s))
    (find_by_id 3 (snd (api_detail (fun _ => 0) (fun _ => ""%string) owner1 3
                          (Update [SetStatus "archived"]) 5000 example_store)))
    = Some ("archived"%string, 5000).
Proof. intros cv. repeat split; reflexivity. Qed.

(** * Further properties of the code *)

(** ** Status counts *)

Definition add_count (o : option Z) (n : Z) : option Z :=
  match o with
  | Some a => Some (a + n)
  | None => if n =? 0 then None else Some n
  end.

Lemma dict_get_bump k k' m :
  dict_get k (bump_count k' m) =
    if String.eqb k k' then add_count (dict_get k m) 1 else dict_get k m.
Proof.
  induction m as [|[k2 n] r IH]; simpl.
  - destruct (String.eqb k k'); reflexivity.
  - destruct (String.eqb k' k2) eqn:E1.
    + apply String.eqb_eq in E1. subst k2. simpl.
      destruct (String.eqb k k'); reflexivity.
    + simpl. rewrite IH.
      destruct (String.eqb k k2) eqn:E2, (String.eqb k k') eqn:E3; try reflexivity.
      apply String.eqb_eq in E2, E3. subst. rewrite String.eqb_refl in E1. discriminate.
Qed.

Lemma dict_get_fold k l m :
  dict_get k (fold_left (fun m s => bump_count (status s) m) l m) =
    add_count (dict_get k m) (count_status k l).
Proof.
  revert m. induction l as [|s r IH]; intro m; simpl.
  - unfold count_status; simpl. destruct (dict_get k m); simpl; [f_equal; lia | reflexivity].
  - rewrite IH, dict_get_bump. unfold count_status. cbn [filter].
    rewrite (String.eqb_sym (status s) k).
    destruct (String.eqb k (status s)); cbn [length].
    + rewrite Nat2Z.inj_succ.
      set (n := Z.of_nat (length _)).
      assert (Hn : 0 <= n) by (subst n; lia).
      destruct (dict_get k m) as [a|]; cbn [add_count].
      * f_equal. lia.
      * destruct (Z.succ n =? 0) eqn:E; [apply Z.eqb_eq in E; lia|].
        change (1 =? 0) with false. cbn iota. cbn [add_count]. f_equal. lia.
    + reflexivity.
Qed.

(** [sessions_by_status] maps every status to the number of the owner's
    sessions that carry it, and omits a status no session carries (no key
    with a zero count). *)
Theorem analytics_sessions_by_status :
  forall now1 now2 u st k,
    dict_get k (sessions_by_status (analytics now1 now2 u st)) =
      (let n := count_status k (owned u st) in if n =? 0 then None else Some n).
Proof.
  intros now1 now2 u st k. unfold analytics; cbv zeta.
  destruct (Z.of_nat (length (owned u st)) =? 0) eqn:E.
  - apply length_zero_nil in E. rewrite E. reflexivity.
  - cbn [sessions_by_status]. unfold count_by_status. rewrite dict_get_fold. reflexivity.
Qed.

(** ** The page analytics and the API analytics *)

(** The analytics page and the API analytics agree on the session count,
    the total duration, the analyzed sessions' filler total and the
    30-day count, for every owner (also one with no session). *)
Theorem page_and_api_analytics_agree :
  forall now now2 u st,
    let p := session_analytics_context now u st in
    let r := analytics now now2 u st in
    pa_total_sessions p = total_sessions r
    /\ pa_total_duration p = total_duration r
    /\ pa_total_fillers p = total_filler_words r
    /\ pa_recent_sessions_count p = recent_sessions_count r.
Proof.
  intros now now2 u st p r. subst p r.
  unfold session_analytics_context, analytics; cbv zeta.
  destruct (Z.of_nat (length (owned u st)) =? 0) eqn:E.
  - apply length_zero_nil in E. rewrite E. repeat split.
  - repeat split.
Qed.

Lemma filter_status_split (l : list SpeechSession) :
  Forall (fun s => In (status s) status_choices) l ->
  length l = (length (filter is_analyzed l)
              + length (filter (fun s => String.eqb (status s) "pending") l)
              + length (filter (fun s => String.eqb (status s) "archived") l))%nat.
Proof.
  induction l as [|s r IH]; intro H; [reflexivity|].
  inversion H as [|? ? Hs Hr]; subst. specialize (IH Hr).
  unfold is_analyzed in *. simpl in Hs |- *.
  destruct Hs as [E | [E | [E | []]]]; rewrite <- E; simpl; lia.
Qed.

(** When every session of the owner has one of the three status choices,
    the page's analyzed, pending and archived counts add up to its total. *)
Theorem page_analytics_status_counts_sum :
  forall now u st,
    Forall (fun s => In (status s) status_choices) (owned u st) ->
    let p := session_analytics_context now u st in
    pa_analyzed_sessions_count p + pa_pending_sessions_count p
      + pa_archived_sessions_count p = pa_total_sessions p.
Proof.
  intros now u st H p. subst p. unfold session_analytics_context, count_status; cbv zeta.
  cbn [pa_analyzed_sessions_count pa_pending_sessions_count
       pa_archived_sessions_count pa_total_sessions].
  rewrite (filter_status_split _ H). lia.
Qed.

Lemma page_analytics_status_counts_sum_witness :
  Forall (fun s => In (status s) status_choices) (owned 1 example_store) /\
  pa_analyzed_sessions_count (session_analytics_context 0 1 example_store)
    + pa_pending_sessions_count (session_analytics_context 0 1 example_store)
    + pa_archived_sessions_count (session_analytics_context 0 1 example_store)
    = pa_total_sessions (session_analytics_context 0 1 example_store).
Proof.
  assert (H : Forall (fun s => In (status s) status_choices) (owned 1 example_store)).
  { apply Forall_forall. intros s Hs. simpl in Hs.
    repeat destruct Hs as [<- | Hs]; simpl; tauto. }
  split; [exact H|]. exact (page_analytics_status_counts_sum 0 1 example_store H).
Defined.

(** ** Admin confidence display *)

Lemma quot_ge_iff n d k : 0 < d -> 0 < k -> (k <= Z.quot n d <-> k * d <= n).
Proof.
  intros Hd Hk. destruct (Z.le_gt_cases 0 n) as [Hn|Hn].
  - rewrite Z.quot_div_nonneg by lia.
    pose proof (Z.div_mod n d ltac:(lia)) as Hdm. pose proof (Z.mod_pos_bound n d Hd) as Hmb.
    split; intro H; nia.
  - assert (Hq : Z.quot n d <= 0).
    { replace n with (- (- n)) by lia. rewrite Z.quot_opp_l by lia.
      pose proof (Z.quot_pos (- n) d ltac:(lia) Hd). lia. }
    split; intro H; nia.
Qed.

(** ** Filler rate of one session *)

(** For an owner whose only session is analyzed and has a positive
    duration, the API's [average_filler_rate] is the model's [filler_rate]
    of that session rounded to 2 decimals. *)
Theorem analytics_single_session_rate :
  forall now1 now2 u st s,
    owned u st = [s] ->
    is_analyzed s = true ->
    0 < duration s ->
    average_filler_rate (analytics now1 now2 u st) = py_round2 (filler_rate s).
Proof.
  intros now1 now2 u st s Hown Ha Hd.
  unfold analytics. rewrite Hown. cbn -[py_round2 filler_rate_of is_analyzed].
  rewrite Ha. unfold filler_rate_of, filler_rate. cbn [map sum_Z].
  rewrite !Z.add_0_r.
  destruct (duration s =? 0) eqn:E; [apply Z.eqb_eq in E; lia|].
  destruct (0 <? duration s) eqn:E'; [reflexivity | apply Z.ltb_ge in E'; lia].
Qed.

Lemma analytics_single_session_rate_witness :
  owned 2 example_store = [sample 4 2 4000 50 9 "analyzed" None None] /\
  average_filler_rate (analytics 0 0 2 example_store)
    = py_round2 (filler_rate (sample 4 2 4000 50 9 "analyzed" None None)).
Proof.
  split; [reflexivity|].
  apply (analytics_single_session_rate 0 0 2 example_store); reflexivity.
Defined.

(** ** Re-analysis *)




(** ** Serializer updates *)

Lemma apply_patch_keys (s : SpeechSession) (p : Patch) :
  id (apply_patch s p) = id s /\ user (apply_patch s p) = user s /\
  date (apply_patch s p) = date s /\ created_at (apply_patch s p) = created_at s.
Proof. destruct p; repeat split. Qed.

Lemma apply_patch_invariant (s : SpeechSession) (p : Patch) :
  patch_valid p = true -> session_invariant s ->
  In (status s) status_choices -> 
  session_invariant (apply_patch s p) /\ In (status (apply_patch s p)) status_choices.
Proof.
  intros Hv [Hd [Hf Hc]] Hs. destruct p as [v|v|v|v|v|v|[q|]]; simpl in Hv |- *;
    unfold session_invariant; simpl.
  - apply andb_true_iff in Hv as [Hv _]. apply Z.ltb_lt in Hv. tauto.
  - apply Z.leb_le in Hv. tauto.
  - tauto.
  - split; [tauto|]. simpl.
    repeat (apply orb_true_iff in Hv as [Hv|Hv]; [apply String.eqb_eq in Hv; subst; tauto|]).
    discriminate.
  - tauto.
  - tauto.
  - apply andb_true_iff in Hv as [H0 H1]. apply Qle_bool_iff in H0, H1. tauto.
  - tauto.
Qed.

Lemma fold_apply_patch (ps : list Patch) : forall s,
  forallb patch_valid ps = true -> session_invariant s -> In (status s) status_choices ->
  let s' := fold_left apply_patch ps s in
  session_invariant s' /\ In (status s') status_choices /\
  id s' = id s /\ user s' = user s /\ date s' = date s /\ created_at s' = created_at s.
Proof.
  induction ps as [|p ps IH]; intros s Hall Hi Hs; simpl in *.
  - tauto.
  - apply andb_true_iff in Hall as [Hp Hall].
    destruct (apply_patch_invariant s p Hp Hi Hs) as [Hi' Hs'].
    destruct (apply_patch_keys s p) as (E1 & E2 & E3 & E4).
    destruct (IH (apply_patch s p) Hall Hi' Hs') as (? & ? & F1 & F2 & F3 & F4).
    rewrite F1, F2, F3, F4, E1, E2, E3, E4. tauto.
Qed.

(** A successful serializer update keeps a valid session valid (positive
    duration, non-negative filler count, confidence in [0, 1], a status
    among the choices), keeps its id, owner, date and creation time, and
    sets [updated_at] to now. *)
Theorem serializer_update_keeps_invariant :
  forall now ps s s',
    session_invariant s ->
    In (status s) status_choices ->
    serializer_update now ps s = Some s' ->
    session_invariant s' /\ In (status s') status_choices /\
    id s' = id s /\ user s' = user s /\ date s' = date s /\
    created_at s' = created_at s /\ updated_at s' = now.
Proof.
  intros now ps s s' Hi Hs Hu. unfold serializer_update in Hu.
  destruct (forallb patch_valid ps) eqn:Hall; [|discriminate].
  injection Hu as <-.
  destruct (fold_apply_patch ps s Hall Hi Hs) as (Hi' & Hs' & F1 & F2 & F3 & F4).
  unfold save, session_invariant in *; simpl. tauto.
Qed.

Lemma serializer_update_keeps_invariant_witness :
  exists s',
    serializer_update 5000 [SetFillerCount 2; SetStatus "archived"; SetConfidence (Some (1 # 2))]
      (sample 1 1 1000 60 6 "analyzed" None None) = Some s' /\
    session_invariant s' /\ In (status s') status_choices /\
    id s' = 1 /\ user s' = 1 /\ date s' = 1000 /\ created_at s' = 1000 /\ updated_at s' = 5000.
Proof.
  eexists. split; [reflexivity|].
  apply (serializer_update_keeps_invariant 5000
           [SetFillerCount 2; SetStatus "archived"; SetConfidence (Some (1 # 2))]
           (sample 1 1 1000 60 6 "analyzed" None None)).
  - unfold session_invariant; simpl; repeat split; lia.
  - simpl; tauto.
  - reflexivity.
Defined.

(** ** Session creation *)



(** ** Pagination *)

Lemma firstn_add_split {A} (a b : nat) : forall (l : list A),
  firstn (a + b) l = firstn a l ++ firstn b (skipn a l).
Proof.
  induction a as [|a IH]; intros [|x l]; simpl; try reflexivity.
  - destruct b; reflexivity.
  - f_equal. apply IH.
Qed.

Lemma chunks_concat {A} (l : list A) (k : nat) : forall m,
  concat (map (fun i => firstn 10 (skipn (10 * i) l)) (seq m k))
    = firstn (10 * k) (skipn (10 * m) l).
Proof.
  induction k as [|k IH]; intros m.
  - reflexivity.
  - cbn [seq map concat]. rewrite IH.
    replace (10 * S k)%nat with (10 + 10 * k)%nat by lia.
    rewrite firstn_add_split, skipn_skipn.
    replace (10 * S m)%nat with (10 + 10 * m)%nat by lia. reflexivity.
Qed.

(** Reading the list view's pages 1 to [num_pages] in turn yields every
    result exactly once and in order: the pages partition the result set. *)
Theorem get_page_partition {A} :
  forall (l : list A),
    concat (map (fun p => get_page (Some (Z.of_nat p)) l)
                (seq 1 (Z.to_nat (paginator_num_pages (length l))))) = l.
Proof.
  intros l.
  set (np := paginator_num_pages (length l)).
  assert (Hnp : 1 <= np /\ Z.of_nat (length l) <= 10 * np).
  { subst np. unfold paginator_num_pages.
    destruct (Z.of_nat (length l) =? 0) eqn:E; [apply Z.eqb_eq in E; lia|].
    apply Z.eqb_neq in E.
    pose proof (Z.div_mod (Z.of_nat (length l) + 9) 10 ltac:(lia)).
    pose proof (Z.mod_pos_bound (Z.of_nat (length l) + 9) 10 ltac:(lia)). lia. }
  rewrite <- (seq_shift (Z.to_nat np) 0), map_map.
  rewrite (map_ext_in _ (fun i => firstn 10 (skipn (10 * i) l))).
  - rewrite chunks_concat. simpl. apply firstn_all2. lia.
  - intros i Hi. apply in_seq in Hi.
    unfold get_page. cbv zeta. fold np.
    change (if Z.of_nat (length l) =? 0 then 1 else (Z.of_nat (length l) + 9) / 10) with np.
    replace ((Z.of_nat (S i) <? 1) || (np <? Z.of_nat (S i))) with false
      by (symmetry; apply orb_false_iff; split; [apply Z.ltb_ge | apply Z.ltb_ge]; lia).
    f_equal. f_equal. lia.
Qed.

(** ** Rows of other users *)

Lemma NoDup_map_inj {A B} (f : A -> B) (l : list A) x y :
  NoDup (map f l) -> In x l -> In y l -> f x = f y -> x = y.
Proof.
  induction l as [|z l IH]; simpl; intros Hnd Hx Hy Hf; [contradiction|].
  inversion Hnd as [|? ? Hn Hnd']; subst.
  destruct Hx as [<-|Hx], Hy as [<-|Hy]; try reflexivity.
  - exfalso. apply Hn. rewrite Hf. apply in_map. exact Hy.
  - exfalso. apply Hn. rewrite <- Hf. apply in_map. exact Hx.
  - apply IH; assumption.
Qed.

Lemma foreign_put u s' st :
  user s' = u -> (forall r, In r st -> id r = id s' -> user r = u) ->
  foreign u (store_put s' st) = foreign u st.
Proof.
  intros Hu. unfold foreign, store_put.
  induction st as [|r st IH]; intros H; simpl; [reflexivity|].
  rewrite IH by (intros; apply H; simpl; auto).
  destruct (id r =? id s') eqn:E; [|reflexivity].
  apply Z.eqb_eq in E. rewrite Hu, (H r (or_introl eq_refl) E), Z.eqb_refl. reflexivity.
Qed.

Lemma foreign_delete u pk st :
  (forall r, In r st -> id r = pk -> user r = u) ->
  foreign u (store_delete pk st) = foreign u st.
Proof.
  unfold foreign, store_delete.
  induction st as [|r st IH]; intros H; simpl; [reflexivity|].
  rewrite <- IH by (intros; apply H; simpl; auto).
  destruct (id r =? pk) eqn:E; simpl; [|reflexivity].
  apply Z.eqb_eq in E. rewrite (H r (or_introl eq_refl) E), Z.eqb_refl. reflexivity.
Qed.

Lemma foreign_map_sel u (sel : SpeechSession -> bool) (g : SpeechSession -> SpeechSession) st :
  (forall s, sel s = true -> user s = u) -> (forall s, user (g s) = user s) ->
  foreign u (map (fun s => if sel s then g s else s) st) = foreign u st.
Proof.
  intros Hs Hg. unfold foreign.
  induction st as [|r st IH]; simpl; [reflexivity|]. rewrite IH.
  destruct (sel r) eqn:E; [|reflexivity].
  rewrite Hg, (Hs r E), Z.eqb_refl. reflexivity.
Qed.

Lemma foreign_filter_sel u (sel : SpeechSession -> bool) st :
  (forall s, sel s = true -> user s = u) ->
  foreign u (filter (fun s => negb (sel s)) st) = foreign u st.
Proof.
  intros Hs. unfold foreign.
  induction st as [|r st IH]; simpl; [reflexivity|].
  destruct (sel r) eqn:E; simpl; rewrite IH; [|reflexivity].
  rewrite (Hs r E), Z.eqb_refl. reflexivity.
Qed.

Lemma selected_user u ids s : selected u ids s = true -> user s = u.
Proof. unfold selected. intro H. apply andb_true_iff in H as [H _]. apply Z.eqb_eq, H. Qed.

Lemma fold_apply_patch_keys (ps : list Patch) : forall s,
  user (fold_left apply_patch ps s) = user s /\ id (fold_left apply_patch ps s) = id s.
Proof.
  induction ps as [|p ps IH]; intros s; simpl; [auto|].
  destruct (IH (apply_patch s p)) as [E1 E2].
  destruct (apply_patch_keys s p) as (F1 & F2 & _).
  rewrite E1, E2, F1, F2. auto.
Qed.

Lemma serializer_update_keys now ps s s' :
  serializer_update now ps s = Some s' -> user s' = user s /\ id s' = id s.
Proof.
  unfold serializer_update. destruct (forallb patch_valid ps); [|discriminate].
  intro H. injection H as <-. apply fold_apply_patch_keys.
Qed.

Lemma prep_updates_user cv ups : forall g,
  prep_updates cv ups = Some g -> forall s, user (g s) = user s.
Proof.
  induction ups as [|[f v] ups IH]; simpl; intros g H s.
  - injection H as <-. reflexivity.
  - destruct (existsb (fun kv => String.eqb (fst kv) f) ups); [exact (IH g H s)|].
    destruct (prep_field cv f v) as [p|]; [|discriminate].
    destruct (prep_updates cv ups) as [h|] eqn:E; [|discriminate].
    injection H as <-. rewrite (IH h eq_refl). exact (proj1 (proj2 (apply_patch_keys s p))).
Qed.

Lemma owned_row_unique u st s :
  NoDup (map id st) -> In s st -> user s = u ->
  forall r, In r st -> id r = id s -> user r = u.
Proof.
  intros Hnd Hs Hu r Hr Hid. rewrite (NoDup_map_inj id st r s Hnd Hr Hs Hid). exact Hu.
Qed.

(** No request changes the rows of another user: with primary keys unique
    in the table, the rows not owned by the requesting actor are the same,
    in the same order, after any API detail action (retrieve, update,
    delete, re-analyze), any page detail action (show, edit, delete), a
    bulk update and a bulk page action, whatever their outcome. *)
Theorem other_users_rows_untouched :
  forall hash_id fmt a st,
    NoDup (map id st) ->
    (forall pk act now,
        foreign (actor_id a) (snd (api_detail hash_id fmt a pk act now st))
          = foreign (actor_id a) st) /\
    (forall pk act now,
        foreign (actor_id a) (snd (page_detail a pk act now st)) = foreign (actor_id a) st) /\
    (forall cv ids ups,
        foreign (actor_id a) (snd (bulk_update cv a ids ups st)) = foreign (actor_id a) st) /\
    (forall action ids,
        foreign (actor_id a) (snd (session_bulk_action_view a action ids st))
          = foreign (actor_id a) st).
Proof.
  intros hash_id fmt a st Hnd. repeat split.
  - intros pk act now. unfold api_detail.
    destruct (api_permission a); [reflexivity|]. unfold get_object.
    destruct (find_by_id pk (owned (actor_id a) st)) as [s|] eqn:F; [|reflexivity].
    destruct (user s =? actor_id a) eqn:U; [|reflexivity].
    apply find_by_id_some in F as [Fin _]. apply in_owned in Fin as [Fin Fu].
    pose proof (owned_row_unique (actor_id a) st s Hnd Fin Fu) as K.
    destruct act as [|ps| |]; cbn [snd].
    + reflexivity.
    + destruct (serializer_update now ps s) as [s'|] eqn:SU; cbn [snd]; [|reflexivity].
      destruct (serializer_update_keys now ps s s' SU) as [E1 E2].
      apply foreign_put; [congruence|]. rewrite E2. exact K.
    + apply foreign_delete. exact K.
    + destruct (audio_file s); cbn [snd]; [|reflexivity].
      apply foreign_put; [exact Fu|]. exact K.
  - intros pk act now. unfold page_detail.
    destruct (page_gate a); [reflexivity|].
    destruct (find_by_id pk (owned (actor_id a) st)) as [s|] eqn:F; [|reflexivity].
    apply find_by_id_some in F as [Fin _]. apply in_owned in Fin as [Fin Fu].
    pose proof (owned_row_unique (actor_id a) st s Hnd Fin Fu) as K.
    destruct act as [| |[ps|]| |]; cbn [snd]; try reflexivity.
    + destruct (fold_apply_patch_keys ps s) as [E1 E2].
      apply foreign_put; [exact (eq_trans E1 Fu)|].
      intros r Hr Hid. apply K; [exact Hr|]. rewrite <- E2. exact Hid.
    + apply foreign_delete. exact K.
  - intros cv ids ups. unfold bulk_update.
    destruct (api_permission a); [reflexivity|].
    destruct ids as [|i ids]; [reflexivity|]. destruct ups as [|kv ups]; [reflexivity|].
    cbv zeta.
    destruct (filter (selected (actor_id a) (i :: ids)) st); [reflexivity|].
    destruct (existsb _ (kv :: ups)); [reflexivity|].
    destruct (prep_updates cv (kv :: ups)) as [g|] eqn:P; [|reflexivity].
    cbn [snd]. apply foreign_map_sel.
    + apply selected_user.
    + exact (prep_updates_user _ _ g P).
  - intros action ids. unfold session_bulk_action_view.
    destruct (page_gate a); [reflexivity|].
    destruct action as [[|c act]|]; [reflexivity| |reflexivity].
    destruct ids as [|i ids]; [reflexivity|]. cbv zeta.
    repeat match goal with |- context [if ?b then _ else _] => destruct b end;
      cbn [snd]; try reflexivity;
      first [ apply foreign_filter_sel | apply foreign_map_sel; [|reflexivity] ];
      apply selected_user.
Qed.

Lemma other_users_rows_untouched_witness :
  NoDup (map id example_store) /\
  foreign 1 (snd (api_detail (fun _ => 0) (fun _ => EmptyString) owner1 3 Destroy 0 example_store))
    = foreign 1 example_store.
Proof.
  assert (Hnd : NoDup (map id example_store)).
  { simpl. repeat constructor; simpl; intuition lia. }
  split; [exact Hnd|].
  exact (proj1 (other_users_rows_untouched (fun _ => 0) (fun _ => EmptyString) owner1
                  example_store Hnd) 3 Destroy 0).
Defined.

(** ** Failed and read-only requests *)

(** A request that does not succeed changes nothing: an API detail action
    either answers 200 or 204 or leaves the table as it was (a retrieve
    always leaves it), a page detail action either redirects (302) or leaves
    it (showing a page always leaves it), and a bulk update or a bulk page
    action either answers 200 or leaves it: there is no partial write. *)
Theorem failed_requests_leave_store :
  forall hash_id fmt a st,
    (forall pk act now,
        let r := api_detail hash_id fmt a pk act now st in
        code (fst r) = 200 \/ code (fst r) = 204 \/ snd r = st) /\
    (forall pk now, snd (api_detail hash_id fmt a pk Retrieve now st) = st) /\
    (forall pk act now,
        let r := page_detail a pk act now st in code (fst r) = 302 \/ snd r = st) /\
    (forall pk now,
        snd (page_detail a pk DetailGet now st) = st /\
        snd (page_detail a pk UpdateGet now st) = st /\
        snd (page_detail a pk DeleteGet now st) = st /\
        snd (page_detail a pk (UpdatePost None) now st) = st) /\
    (forall cv ids ups,
        let r := bulk_update cv a ids ups st in code (fst r) = 200 \/ snd r = st) /\
    (forall action ids,
        let r := session_bulk_action_view a action ids st in code (fst r) = 200 \/ snd r = st).
Proof.
  intros hash_id fmt a st.
  refine (conj _ (conj _ (conj _ (conj _ (conj _ _))))).
  - intros pk act now r. subst r. unfold api_detail.
    destruct (api_permission a); [tauto|].
    destruct (get_object a pk st) as [s|]; [|tauto].
    destruct act as [|ps| |]; cbn [fst snd code].
    + tauto.
    + destruct (serializer_update now ps s); cbn [fst snd code]; tauto.
    + tauto.
    + destruct (audio_file s); cbn [fst snd code]; tauto.
  - intros pk now. unfold api_detail.
    destruct (api_permission a); [reflexivity|].
    destruct (get_object a pk st); reflexivity.
  - intros pk act now r. subst r. unfold page_detail.
    destruct (page_gate a); [tauto|].
    destruct (find_by_id pk (owned (actor_id a) st)); [|tauto].
    destruct act as [| |[ps|]| |]; cbn [fst snd code]; tauto.
  - intros pk now. unfold page_detail.
    destruct (page_gate a); [repeat split|].
    destruct (find_by_id pk (owned (actor_id a) st)); repeat split.
  - intros cv ids ups r. subst r. unfold bulk_update.
    destruct (api_permission a); [tauto|].
    destruct ids as [|i ids]; [tauto|]. destruct ups as [|kv ups]; [tauto|].
    cbv zeta.
    destruct (filter (selected (actor_id a) (i :: ids)) st); [tauto|].
    destruct (existsb _ (kv :: ups)); [tauto|].
    destruct (prep_updates cv (kv :: ups)); cbn [fst snd code]; tauto.
  - intros action ids r. subst r. unfold session_bulk_action_view.
    destruct (page_gate a); [tauto|].
    destruct action as [[|c act]|]; [tauto| |tauto].
    destruct ids as [|i ids]; [tauto|]. cbv zeta.
    repeat match goal with |- context [if ?b then _ else _] => destruct b end;
      cbn [fst snd code]; tauto.
Qed.

(** ** Bulk page actions *)

Lemma filter_length_split {A} (p : A -> bool) (l : list A) :
  (length (filter p l) + length (filter (fun x => negb (p x)) l))%nat = length l.
Proof.
  induction l as [|x l IH]; simpl; [reflexivity|].
  destruct (p x); simpl; lia.
Qed.

Lemma map_set_status_facts (sel : SpeechSession -> bool) v st :
  let st' := map (fun s => if sel s then set_status v s else s) st in
  map id st' = map id st /\ map user st' = map user st /\
  (forall s, In s st' -> sel s = true -> status s = v) /\
  (forall s, In s st -> sel s = false -> In s st').
Proof.
  intros st'. subst st'. split; [|split; [|split]].
  - rewrite map_map. apply map_ext. intro s. destruct (sel s); reflexivity.
  - rewrite map_map. apply map_ext. intro s. destruct (sel s); reflexivity.
  - intros s Hs Hsel. apply in_map_iff in Hs as [x [Hx Hin]].
    destruct (sel x) eqn:E; subst; [reflexivity | congruence].
  - intros s Hs Hsel. apply in_map_iff. exists s. rewrite Hsel. split; [reflexivity | exact Hs].
Qed.

(** A bulk page action that succeeds reports the number of the actor's
    rows among the given ids, which is positive; [delete] removes exactly
    those rows (the table shrinks by the reported count), while [archive]
    and [mark_analyzed] keep every row in place (same ids, same owners, in
    order), leave unselected rows as they were and give each selected row
    the new status. *)
Theorem session_bulk_action_outcome :
  forall a action ids st n st',
    session_bulk_action_view a action ids st = (mkResp 200 (PCount n), st') ->
    let sel := selected (actor_id a) ids in
    n = Z.of_nat (length (filter sel st)) /\ 0 < n /\
    ((action = Some "delete"%string /\
      Z.of_nat (length st') = Z.of_nat (length st) - n /\
      (forall s, In s st' <-> In s st /\ sel s = false)) \/
     (exists v,
        (action = Some "archive"%string /\ v = "archived"%string \/
         action = Some "mark_analyzed"%string /\ v = "analyzed"%string) /\
        map id st' = map id st /\ map user st' = map user st /\
        (forall s, In s st' -> sel s = true -> status s = v) /\
        (forall s, In s st -> sel s = false -> In s st'))).
Proof.
  intros a action ids st n st' H. cbv zeta.
  unfold session_bulk_action_view, page_gate in H.
  destruct (negb (is_authenticated a)); [discriminate|].
  destruct (is_2fa_enabled a && negb (has_2fa_setup a)); [discriminate|].
  destruct action as [[|c act]|]; [discriminate| |discriminate].
  destruct ids as [|i ids]; [discriminate|]. cbv zeta in H.
  set (sel := selected (actor_id a) (i :: ids)) in *.
  destruct (Z.of_nat (length (filter sel st)) =? 0) eqn:E0; [discriminate|].
  apply Z.eqb_neq in E0.
  destruct (String.eqb (String c act) "delete") eqn:Ed.
  { injection H as <- <-. apply String.eqb_eq in Ed. rewrite Ed.
    split; [reflexivity|]. split; [lia|]. left. split; [reflexivity|]. split.
    - pose proof (filter_length_split sel st). lia.
    - intro s. rewrite filter_In, negb_true_iff. reflexivity. }
  destruct (String.eqb (String c act) "archive") eqn:Ea.
  { injection H as <- <-. apply String.eqb_eq in Ea. rewrite Ea.
    split; [reflexivity|]. split; [lia|]. right. exists "archived"%string.
    split; [left; split; reflexivity|]. apply map_set_status_facts. }
  destruct (String.eqb (String c act) "mark_analyzed") eqn:Em; [|discriminate].
  injection H as <- <-. apply String.eqb_eq in Em. rewrite Em.
  split; [reflexivity|]. split; [lia|]. right. exists "analyzed"%string.
  split; [right; split; reflexivity|]. apply map_set_status_facts.
Qed.

Lemma session_bulk_action_outcome_witness :
  exists st',
    session_bulk_action_view owner1 (Some "archive"%string) [1; 2; 4] example_store
      = (mkResp 200 (PCount 2), st') /\
    map id st' = map id example_store.
Proof.
  set (st' := snd (session_bulk_action_view owner1 (Some "archive"%string) [1; 2; 4]
                     example_store)).
  assert (H : session_bulk_action_view owner1 (Some "archive"%string) [1; 2; 4] example_store
                = (mkResp 200 (PCount 2), st')) by reflexivity.
  exists st'. split; [exact H|].
  destruct (session_bulk_action_outcome owner1 (Some "archive"%string) [1; 2; 4]
              example_store 2 st' H) as (_ & _ & [(Hd & _) | (v & _ & Hid & _)]).
  - discriminate.
  - exact Hid.
Defined.

(** ** Primary keys *)

Lemma map_id_put s' st : map id (store_put s' st) = map id st.
Proof.
  unfold store_put. induction st as [|r st IH]; simpl; [reflexivity|].
  rewrite IH. destruct (id r =? id s') eqn:E; [|reflexivity].
  apply Z.eqb_eq in E. rewrite E. reflexivity.
Qed.

Lemma NoDup_ids_filter (keep : SpeechSession -> bool) (st : Store) :
  NoDup (map id st) -> NoDup (map id (filter keep st)).
Proof.
  intro Hnd. induction st as [|r st IH]; [constructor|].
  cbn [map] in Hnd. apply NoDup_cons_iff in Hnd as [Hr Hst].
  cbn [filter]. destruct (keep r); [|exact (IH Hst)].
  cbn [map]. apply NoDup_cons; [|exact (IH Hst)].
  rewrite in_map_iff. intros [x [Hx Hin]]. apply Hr.
  rewrite filter_In in Hin. rewrite <- Hx. apply in_map, Hin.
Qed.

Lemma map_id_map_sel (sel : SpeechSession -> bool) (g : SpeechSession -> SpeechSession) st :
  (forall s, id (g s) = id s) ->
  map id (map (fun s => if sel s then g s else s) st) = map id st.
Proof.
  intros Hg. rewrite map_map. apply map_ext. intro s. destruct (sel s); [apply Hg | reflexivity].
Qed.

Lemma prep_updates_id cv ups : forall g,
  prep_updates cv ups = Some g -> forall s, id (g s) = id s.
Proof.
  induction ups as [|[f v] ups IH]; simpl; intros g H s.
  - injection H as <-. reflexivity.
  - destruct (existsb (fun kv => String.eqb (fst kv) f) ups); [exact (IH g H s)|].
    destruct (prep_field cv f v) as [p|]; [|discriminate].
    destruct (prep_updates cv ups) as [h|] eqn:E; [|discriminate].
    injection H as <-. rewrite (IH h eq_refl). exact (proj1 (apply_patch_keys s p)).
Qed.

(** Every request keeps primary keys unique: if the ids of the table are
    pairwise distinct before an API detail action, a page detail action, a
    bulk update or a bulk page action, they are after it; creating a row
    keeps them distinct when the database assigns a fresh id. *)
Theorem primary_keys_stay_unique :
  forall hash_id fmt a st,
    NoDup (map id st) ->
    (forall pk act now, NoDup (map id (snd (api_detail hash_id fmt a pk act now st)))) /\
    (forall pk act now, NoDup (map id (snd (page_detail a pk act now st)))) /\
    (forall cv ids ups, NoDup (map id (snd (bulk_update cv a ids ups st)))) /\
    (forall action ids, NoDup (map id (snd (session_bulk_action_view a action ids st)))) /\
    (forall pk now dur audio tr,
        ~ In pk (map id st) -> NoDup (map id (snd (api_create a pk now dur audio tr st)))).
Proof.
  intros hash_id fmt a st Hnd.
  refine (conj _ (conj _ (conj _ (conj _ _)))).
  - intros pk act now. unfold api_detail.
    destruct (api_permission a); [exact Hnd|].
    destruct (get_object a pk st) as [s|]; [|exact Hnd].
    destruct act as [|ps| |]; cbn [snd]; [exact Hnd| | |].
    + destruct (serializer_update now ps s); cbn [snd]; [rewrite map_id_put|]; exact Hnd.
    + apply NoDup_ids_filter. exact Hnd.
    + destruct (audio_file s); cbn [snd]; [rewrite map_id_put|]; exact Hnd.
  - intros pk act now. unfold page_detail.
    destruct (page_gate a); [exact Hnd|].
    destruct (find_by_id pk (owned (actor_id a) st)) as [s|]; [|exact Hnd].
    destruct act as [| |[ps|]| |]; cbn [snd]; try exact Hnd.
    + rewrite map_id_put. exact Hnd.
    + apply NoDup_ids_filter. exact Hnd.
  - intros cv ids ups. unfold bulk_update.
    destruct (api_permission a); [exact Hnd|].
    destruct ids as [|i ids]; [exact Hnd|]. destruct ups as [|kv ups]; [exact Hnd|].
    cbv zeta.
    destruct (filter (selected (actor_id a) (i :: ids)) st); [exact Hnd|].
    destruct (existsb _ (kv :: ups)); [exact Hnd|].
    destruct (prep_updates cv (kv :: ups)) as [g|] eqn:P; cbn [snd]; [|exact Hnd].
    rewrite map_id_map_sel by exact (prep_updates_id _ _ g P). exact Hnd.
  - intros action ids. unfold session_bulk_action_view.
    destruct (page_gate a); [exact Hnd|].
    destruct action as [[|c act]|]; [exact Hnd| |exact Hnd].
    destruct ids as [|i ids]; [exact Hnd|]. cbv zeta.
    repeat match goal with |- context [if ?b then _ else _] => destruct b end;
      cbn [snd]; try exact Hnd;
      first [ apply NoDup_ids_filter; exact Hnd
            | rewrite map_id_map_sel by reflexivity; exact Hnd ].
  - intros pk now dur audio tr Hfresh. unfold api_create.
    destruct (api_permission a); [exact Hnd|].
    destruct ((0 <? dur) && (0 <=? dur)); cbn [snd]; [|exact Hnd].
    rewrite map_app.
    apply (Permutation_NoDup (Permutation_cons_append _ _)).
    destruct audio; simpl; constructor; assumption.
Qed.

Lemma primary_keys_stay_unique_witness :
  NoDup (map id example_store) /\ ~ In 5 (map id example_store) /\
  NoDup (map id (snd (api_create owner1 5 7000 90 None "hello" example_store))).
Proof.
  assert (Hnd : NoDup (map id example_store)).
  { simpl. repeat constructor; simpl; intuition lia. }
  assert (Hf : ~ In 5 (map id example_store)) by (simpl; intuition lia).
  split; [exact Hnd|]. split; [exact Hf|].
  exact (proj2 (proj2 (proj2 (proj2 (primary_keys_stay_unique (fun _ => 0) (fun _ => EmptyString)
                                         owner1 example_store Hnd)))) 5 7000 90 None "hello"%string Hf).
Defined.

(** ** Writes followed by reads *)

Lemma find_put_owned u pk s' st :
  user s' = u -> id s' = pk -> find_by_id pk (owned u st) <> None ->
  find_by_id pk (owned u (store_put s' st)) = Some s'.
Proof.
  intros Hu Hid. unfold owned, store_put. rewrite Hid.
  induction st as [|r st IH]; simpl; intro Hf; [congruence|].
  destruct (id r =? pk) eqn:E.
  - simpl. rewrite Hu, Z.eqb_refl. simpl. rewrite Hid, Z.eqb_refl. reflexivity.
  - destruct (user r =? u); simpl; rewrite ?E; apply IH; simpl in Hf; rewrite ?E in Hf; exact Hf.
Qed.

Lemma find_delete_none u pk st : find_by_id pk (owned u (store_delete pk st)) = None.
Proof.
  apply find_by_id_none. intros s Hs Hid.
  apply in_owned in Hs as [Hs _]. unfold store_delete in Hs.
  apply filter_In in Hs as [_ Hs]. rewrite Hid, Z.eqb_refl in Hs. discriminate.
Qed.



(** ** Unauthenticated requests *)

(** One endpoint refused by its gate: unfold it and rewrite the gate's
    answer ([Hp] for the API permission, [Hg] for the page decorators). *)
Ltac gate_step Hp Hg :=
  first [ unfold api_list; rewrite Hp; reflexivity
        | unfold api_create; rewrite Hp; reflexivity
        | unfold api_detail; rewrite Hp; reflexivity
        | unfold api_analytics; rewrite Hp; reflexivity
        | unfold bulk_update; rewrite Hp; reflexivity
        | unfold session_list_view; rewrite Hg; reflexivity
        | unfold session_create_view; rewrite Hg; reflexivity
        | unfold page_detail; rewrite Hg; reflexivity
        | unfold session_bulk_action_view; rewrite Hg; reflexivity
        | unfold session_analytics_view; rewrite Hg; reflexivity ].

(** A request without a logged-in user is refused by every endpoint
    before any lookup and leaves the table alone: the API answers 401
    (list, creation, detail actions, analytics, bulk update), the pages
    redirect to the login page (list, creation, detail pages, bulk action,
    analytics). *)
Theorem unauthenticated_requests_refused :
  forall hash_id fmt a st,
    is_authenticated a = false ->
    (forall fq, api_list fq a st = inl (err 401 "not authenticated")) /\
    (forall pk now dur audio tr,
        api_create a pk now dur audio tr st = (err 401 "not authenticated", st)) /\
    (forall pk act now,
        api_detail hash_id fmt a pk act now st = (err 401 "not authenticated", st)) /\
    (forall now1 now2, api_analytics a now1 now2 st = inl (err 401 "not authenticated")) /\
    (forall cv ids ups, bulk_update cv a ids ups st = (err 401 "not authenticated", st)) /\
    (forall form pn, session_list_view a form pn st = inl (mkResp 302 (PRedirect "login"))) /\
    (forall req pk now,
        session_create_view a req pk now st = (mkResp 302 (PRedirect "login"), st)) /\
    (forall pk act now, page_detail a pk act now st = (mkResp 302 (PRedirect "login"), st)) /\
    (forall action ids,
        session_bulk_action_view a action ids st = (mkResp 302 (PRedirect "login"), st)) /\
    (forall now, session_analytics_view a now st = inl (mkResp 302 (PRedirect "login"))).
Proof.
  intros hash_id fmt a st H.
  assert (Hp : api_permission a = Some (err 401 "not authenticated"))
    by (unfold api_permission; rewrite H; reflexivity).
  assert (Hg : page_gate a = Some (mkResp 302 (PRedirect "login")))
    by (unfold page_gate; rewrite H; reflexivity).
  refine (conj _ (conj _ (conj _ (conj _ (conj _ (conj _ (conj _ (conj _ (conj _ _)))))))));
    intros; gate_step Hp Hg.
Qed.

Lemma unauthenticated_requests_refused_witness :
  is_authenticated (mkActor 9 false false false false) = false /\
  bulk_update sample_conv (mkActor 9 false false false false) [1]
    [("status"%string, JStr "archived")] example_store
    = (err 401 "not authenticated", example_store).
Proof.
  split; [reflexivity|].
  exact (proj1 (proj2 (proj2 (proj2 (proj2
           (unauthenticated_requests_refused (fun _ => 0) (fun _ => EmptyString)
              (mkActor 9 false false false false) example_store eq_refl)))))
           sample_conv [1] [("status"%string, JStr "archived")]).
Defined.

(** ** Page numbers out of range *)

Lemma paginator_num_pages_bounds (n : nat) :
  1 <= paginator_num_pages n /\ Z.of_nat n <= 10 * paginator_num_pages n.
Proof.
  unfold paginator_num_pages.
  destruct (Z.of_nat n =? 0) eqn:E; [apply Z.eqb_eq in E; lia|].
  apply Z.eqb_neq in E.
  pose proof (Z.div_mod (Z.of_nat n + 9) 10 ltac:(lia)).
  pose proof (Z.mod_pos_bound (Z.of_nat n + 9) 10 ltac:(lia)). lia.
Qed.

Lemma get_page_nonempty {A} (l : list A) pn : l <> [] -> get_page pn l <> [].
Proof.
  intros Hl. unfold get_page. cbv zeta.
  assert (Hlen : (0 < length l)%nat) by (destruct l; [contradiction | simpl; lia]).
  replace (Z.of_nat (length l) =? 0) with false by (symmetry; apply Z.eqb_neq; lia).
  set (n := Z.of_nat (length l)) in *.
  set (np := (n + 9) / 10).
  assert (Hnp : 1 <= np /\ 10 * np <= n + 9).
  { split; [apply Z.div_le_lower_bound; lia | apply Z.mul_div_le; lia]. }
  assert (Hp : forall p, 1 <= p <= np -> (Z.to_nat ((p - 1) * 10) < length l)%nat) by lia.
  assert (Hk : (Z.to_nat ((match pn with
                           | None => 1
                           | Some k => if ((k <? 1) || (np <? k))%Z then np else k
                           end - 1) * 10) < length l)%nat).
  { apply Hp. destruct pn as [k|]; [|lia].
    destruct ((k <? 1) || (np <? k))%Z eqn:E; [lia|].
    apply orb_false_iff in E as [E1 E2]. apply Z.ltb_ge in E1, E2. lia. }
  intros Hnil. apply (f_equal (@length A)) in Hnil.
  rewrite length_firstn, length_skipn in Hnil. unfold page_size in Hnil. cbn [length] in Hnil. lia.
Qed.

(** The list page is never empty while the actor has a session that the
    filters keep: whatever page number is asked for (missing, not a
    number in range, or beyond the last page), the page shown holds at
    least one session. *)
Theorem session_list_page_nonempty :
  forall a form pn st,
    page_gate a = None ->
    session_list_queryset (actor_id a) form st <> [] ->
    exists s rest, session_list_view a form pn st = inr (s :: rest).
Proof.
  intros a form pn st Hg Hne. unfold session_list_view. rewrite Hg.
  destruct (get_page pn (session_list_queryset (actor_id a) form st)) as [|s rest] eqn:E.
  - exfalso. exact (get_page_nonempty _ pn Hne E).
  - exists s, rest. reflexivity.
Qed.

Lemma session_list_page_nonempty_witness :
  exists s rest, session_list_view owner1 None (Some 7) example_store = inr (s :: rest).
Proof.
  exact (session_list_page_nonempty owner1 None (Some 7) example_store eq_refl
           ltac:(vm_compute; discriminate)).
Defined.

(** ** Rounding to doubles *)

Lemma round_half_even_le (y : Q) (m : Z) : (y <= inject_Z m)%Q -> round_half_even y <= m.
Proof.
  intros H. unfold round_half_even.
  pose proof (Qfloor_resp_le _ _ H) as Hf. rewrite Qfloor_Z in Hf.
  pose proof (Qfloor_le y) as Hy.
  destruct (Z.eq_dec (Qfloor y) m) as [E|E].
  - assert (Hlt : (y - inject_Z (Qfloor y) < 1 # 2)%Q) by (rewrite E; lra).
    rewrite Qlt_alt in Hlt. rewrite Hlt. lia.
  - destruct (Qcompare _ _); try destruct (Z.even _); lia.
Qed.

Lemma round_half_even_compat (x y : Q) : (x == y)%Q -> round_half_even x = round_half_even y.
Proof.
  intros E. unfold round_half_even.
  rewrite (Qfloor_comp x y E).
  assert (Ec : Qcompare (x - inject_Z (Qfloor y))%Q (1 # 2)
               = Qcompare (y - inject_Z (Qfloor y))%Q (1 # 2))
    by (apply Qcompare_comp; [rewrite E|]; reflexivity).
  rewrite Ec.
  reflexivity.
Qed.

Lemma round_half_even_ge (y : Q) (m : Z) : (inject_Z m <= y)%Q -> m <= round_half_even y.
Proof.
  intros H. unfold round_half_even.
  pose proof (Qfloor_resp_le _ _ H) as Hf. rewrite Qfloor_Z in Hf.
  destruct (Qcompare _ _); try destruct (Z.even _); lia.
Qed.

Lemma Qpower2_opp (j : Z) : 0 <= j -> (Qpower (2 # 1) (- j) == / inject_Z (2 ^ j))%Q.
Proof.
  intros Hj. rewrite Qpower_opp. rewrite (Zpower_Qpower 2 j Hj). reflexivity.
Qed.

Lemma log2_floor_Q_le (x : Q) : Qnum x <= 128 * Zpos (Qden x) -> log2_floor_Q x <= 8.
Proof.
  intros H. unfold log2_floor_Q. cbv zeta.
  assert (Hl : Z.log2 (Qnum x) - Z.log2 (Zpos (Qden x)) <= 8).
  { destruct (Z.le_gt_cases (Qnum x) 0) as [Hn|Hn].
    - rewrite (Z.log2_nonpos _ Hn). pose proof (Z.log2_nonneg (Zpos (Qden x))). lia.
    - pose proof (Z.log2_le_mono _ _ H) as H1.
      pose proof (Z.log2_mul_above 128 (Zpos (Qden x)) ltac:(lia) ltac:(lia)) as H2.
      change (Z.log2 128) with 7 in H2. lia. }
  destruct (Qle_bool _ _); lia.
Qed.

Lemma round_double_small (x : Q) :
  (0 <= x <= 128)%Q ->
  exists j, 0 <= j /\
    (round_double x == inject_Z (round_half_even (x * inject_Z (2 ^ j))) / inject_Z (2 ^ j))%Q.
Proof.
  intros [H0 H1]. unfold round_double.
  destruct (Qeq_bool x 0) eqn:Ez.
  - exists 0. split; [lia|]. apply Qeq_bool_eq in Ez.
    rewrite (round_half_even_compat _ 0) by (rewrite Ez; reflexivity).
    reflexivity.
  - cbv zeta.
    assert (Ha : (Qabs x == x)%Q) by (apply Qabs_pos; exact H0).
    set (L := log2_floor_Q (Qabs x)).
    assert (HL : L <= 8).
    { apply log2_floor_Q_le. destruct x as [n d]. unfold Qle in H0, H1. simpl in H0, H1 |- *.
      rewrite Z.abs_eq by lia. lia. }
    set (e := Z.max (-1074) (L - 52)).
    exists (- e). split; [lia|].
    assert (Hp : (Qpower (2 # 1) e == / inject_Z (2 ^ (- e)))%Q).
    { rewrite <- Qpower2_opp by lia. rewrite Z.opp_involutive. reflexivity. }
    assert (Hpos : (0 < inject_Z (2 ^ (- e)))%Q).
    { unfold Qlt. simpl. pose proof (Z.pow_pos_nonneg 2 (- e) ltac:(lia) ltac:(lia)). lia. }
    rewrite (round_half_even_compat _ (x * inject_Z (2 ^ (- e)))).
    + rewrite Hp. reflexivity.
    + rewrite Hp. field. apply Qnot_eq_sym, Qlt_not_eq, Hpos.
Qed.

Lemma round_double_le_int (x : Q) (c : Z) :
  (0 <= x <= 128)%Q -> (x <= inject_Z c)%Q -> (round_double x <= inject_Z c)%Q.
Proof.
  intros Hx Hc. destruct (round_double_small x Hx) as (j & Hj & E). rewrite E.
  assert (Hpos : (0 < inject_Z (2 ^ j))%Q).
  { unfold Qlt. simpl. pose proof (Z.pow_pos_nonneg 2 j ltac:(lia) Hj). lia. }
  apply Qle_shift_div_r; [exact Hpos|].
  rewrite <- inject_Z_mult, <- Zle_Qle.
  apply round_half_even_le. rewrite inject_Z_mult.
  apply Qmult_le_compat_r; [exact Hc | apply Qlt_le_weak, Hpos].
Qed.

Lemma round_double_ge_int (x : Q) (c : Z) :
  (0 <= x <= 128)%Q -> (inject_Z c <= x)%Q -> (inject_Z c <= round_double x)%Q.
Proof.
  intros Hx Hc. destruct (round_double_small x Hx) as (j & Hj & E). rewrite E.
  assert (Hpos : (0 < inject_Z (2 ^ j))%Q).
  { unfold Qlt. simpl. pose proof (Z.pow_pos_nonneg 2 j ltac:(lia) Hj). lia. }
  apply Qle_shift_div_l; [exact Hpos|].
  rewrite <- inject_Z_mult, <- Zle_Qle.
  apply round_half_even_ge. rewrite inject_Z_mult.
  apply Qmult_le_compat_r; [exact Hc | apply Qlt_le_weak, Hpos].
Qed.

Lemma py_int_range (r : Q) (lo hi : Z) :
  0 <= lo -> (inject_Z lo <= r)%Q -> (r <= inject_Z hi)%Q -> lo <= py_int r <= hi.
Proof.
  destruct r as [n d]. unfold Qle, py_int. simpl. intros Hlo H0 H1.
  rewrite Z.quot_div_nonneg by lia.
  pose proof (Z.div_mod n (Zpos d) ltac:(lia)) as Hdm.
  pose proof (Z.mod_pos_bound n (Zpos d) ltac:(lia)) as Hmb.
  split; nia.
Qed.

(** ** Ranges of displayed values *)

(** For a confidence score in [0, 1] (the serializer's bound) the admin
    shows a whole percentage between 0 and 100. *)
Theorem confidence_display_percentage_range :
  forall q,
    (0 <= q <= 1)%Q ->
    match confidence_display (Some q) with
    | Some (p, _) => 0 <= p <= 100
    | None => False
    end.
Proof.
  intros q [H0 H1]. unfold confidence_display.
  assert (Hx : (0 <= q * 100 <= 128)%Q) by lra.
  apply py_int_range.
  - lia.
  - apply round_double_ge_int; [exact Hx | change (inject_Z 0) with 0%Q; lra].
  - apply round_double_le_int; [exact Hx | change (inject_Z 100) with 100%Q; lra].
Qed.

Lemma confidence_display_percentage_range_witness :
  confidence_display (Some (round_double (57 # 100))) = Some (56, "#EF4444"%string) /\
  0 <= 56 <= 100.
Proof.
  split; [vm_compute; reflexivity|].
  exact (confidence_display_percentage_range (round_double (57 # 100))
           ltac:(split; vm_compute; discriminate)).
Defined.

(** For a confidence score in [0, 1], a score of at least 0.8 is always
    shown in green and a score of at least 0.6 never in red: the float
    rounding of [score * 100] never pulls a percentage below these
    thresholds (it can push a score just under one of them over it). *)
Theorem confidence_display_thresholds :
  forall q,
    (0 <= q <= 1)%Q ->
    (((4 # 5) <= q)%Q -> option_map snd (confidence_display (Some q)) = Some "#10B981"%string)
    /\ (((3 # 5) <= q)%Q -> option_map snd (confidence_display (Some q)) <> Some "#EF4444"%string).
Proof.
  intros q [H0 H1].
  assert (Hx : (0 <= q * 100 <= 128)%Q) by lra.
  unfold confidence_display. cbn [option_map snd].
  split; intros Hq.
  - assert (Hp : 80 <= py_int (round_double (q * 100)) <= 100).
    { apply py_int_range; [lia| |apply round_double_le_int; [exact Hx|]].
      - apply round_double_ge_int; [exact Hx | change (inject_Z 80) with 80%Q; lra].
      - change (inject_Z 100) with 100%Q; lra. }
    apply proj1, Z.leb_le in Hp. rewrite Hp. reflexivity.
  - assert (Hp : 60 <= py_int (round_double (q * 100)) <= 100).
    { apply py_int_range; [lia| |apply round_double_le_int; [exact Hx|]].
      - apply round_double_ge_int; [exact Hx | change (inject_Z 60) with 60%Q; lra].
      - change (inject_Z 100) with 100%Q; lra. }
    destruct (80 <=? py_int (round_double (q * 100))); [discriminate|].
    apply proj1, Z.leb_le in Hp. rewrite Hp. discriminate.
Qed.

Lemma confidence_display_thresholds_witness :
  confidence_display (Some (3 # 5)%Q) = Some (60, "#F59E0B"%string) /\
  option_map snd (confidence_display (Some (3 # 5)%Q)) <> Some "#EF4444"%string.
Proof.
  split; [vm_compute; reflexivity|].
  apply (proj2 (confidence_display_thresholds (3 # 5) ltac:(split; vm_compute; discriminate))).
  vm_compute. discriminate.
Defined.



Lemma py_round2_le_100 (x : Q) : (x <= 100)%Q -> (py_round2 x <= 100)%Q.
Proof.
  intros H. unfold py_round2.
  assert (Hx : (x * 100 <= inject_Z 10000)%Q).
  { apply (Qle_trans _ (100 * 100)%Q); [apply Qmult_le_compat_r; lra | apply Qle_refl]. }
  pose proof (round_half_even_le _ _ Hx). unfold Qle. simpl. lia.
Qed.

Lemma sum_Z_nonneg (l : list Z) : Forall (fun x => 0 <= x) l -> 0 <= sum_Z l.
Proof. induction 1; simpl; lia. Qed.

Lemma avg_Z_nonneg (l : list Z) : Forall (fun x => 0 <= x) l -> (0 <= avg_Z l)%Q.
Proof.
  intros H. unfold avg_Z. destruct l as [|x r]; [apply Qle_refl|].
  apply Qle_shift_div_l.
  - assert (0 < Z.of_nat (length (x :: r))) by (cbn [length]; lia).
    unfold Qlt. cbn [Qnum Qden inject_Z]. lia.
  - pose proof (sum_Z_nonneg _ H). rewrite Qmult_0_l. unfold Qle. cbn [Qnum Qden inject_Z]. lia.
Qed.

Lemma improvement_ratio_le (p r : Q) :
  (0 < p)%Q -> (0 <= r)%Q -> ((p - r) / p * 100 <= 100)%Q.
Proof.
  intros Hp Hr.
  assert (H1 : ((p - r) / p <= 1)%Q) by (apply Qle_shift_div_r; [exact Hp | lra]).
  apply (Qle_trans _ (1 * 100)%Q); [apply Qmult_le_compat_r; lra | apply Qle_refl].
Qed.

(** When no session carries a negative filler count, the improvement
    percentage of the analytics never exceeds 100 (a recent average of
    zero fillers). *)
Theorem analytics_improvement_at_most_100 :
  forall now1 now2 u st q,
    Forall (fun s => 0 <= filler_count s) (owned u st) ->
    improvement_metrics (analytics now1 now2 u st) = Some (Some q) ->
    (q <= 100)%Q.
Proof.
  intros now1 now2 u st q HF H. unfold analytics in H.
  destruct (Z.of_nat (length (owned u st)) =? 0); [discriminate|].
  cbn [improvement_metrics] in H. injection H as H.
  assert (Hr : Forall (fun x => 0 <= x) (map filler_count (recent_window now1 (owned u st)))).
  { apply Forall_map, Forall_forall. intros x Hx. unfold recent_window in Hx.
    apply filter_In in Hx as [Hx _]. rewrite Forall_forall in HF. exact (HF x Hx). }
  unfold improvement_of in H.
  destruct (1 <? Z.of_nat (length (owned u st))); [|discriminate].
  remember (recent_window now1 (owned u st)) as R eqn:ER.
  remember (previous_window now1 now2 (owned u st)) as P eqn:EP.
  destruct R as [|r rs]; [discriminate|]. destruct P as [|p ps]; [discriminate|].
  destruct (Qltb 0 _) eqn:Eq; [|discriminate].
  injection H as <-. apply Qltb_spec in Eq.
  apply py_round2_le_100, improvement_ratio_le; [exact Eq | exact (avg_Z_nonneg _ Hr)].
Qed.

Lemma analytics_improvement_at_most_100_witness :
  exists q,
    improvement_metrics (analytics 2593500 2593500 1 example_store) = Some (Some q) /\
    (q <= 100)%Q.
Proof.
  eexists. split; [vm_compute; reflexivity|].
  apply (analytics_improvement_at_most_100 2593500 2593500 1 example_store).
  - apply Forall_forall. intros s Hs. simpl in Hs.
    repeat destruct Hs as [<- | Hs]; simpl; try lia; contradiction.
  - vm_compute. reflexivity.
Defined.

(** ** Successful bulk updates *)

Lemma existsb_negb_forallb {A} (f : A -> bool) (l : list A) :
  existsb (fun x => negb (f x)) l = negb (forallb f l).
Proof. induction l as [|x l IH]; simpl; [reflexivity|]. rewrite IH. destruct (f x); reflexivity. Qed.

(** A bulk update that succeeds had only allowed field names, and values
    that the fields' conversions ([int()], [float()], [str()]) accept; it
    reports the number of the actor's rows among
    the given ids, which is positive; the table keeps its rows in place
    (same ids and owners, in order), unselected rows are unchanged, and
    every selected row is replaced by the same row update. *)
Theorem bulk_update_success_shape :
  forall cv a ids ups st n st',
    bulk_update cv a ids ups st = (mkResp 200 (PCount n), st') ->
    let sel := selected (actor_id a) ids in
    n = Z.of_nat (length (filter sel st)) /\ 0 < n /\
    forallb (fun kv => is_allowed (fst kv)) ups = true /\
    map id st' = map id st /\ map user st' = map user st /\
    (forall s, In s st -> sel s = false -> In s st') /\
    exists g, prep_updates cv ups = Some g /\ (forall s, In s st -> sel s = true -> In (g s) st').
Proof.
  intros cv a ids ups st n st' H. cbv zeta.
  unfold bulk_update, api_permission in H.
  destruct (negb (is_authenticated a)); [discriminate|].
  destruct (is_2fa_enabled a && negb (is_verified a)); [discriminate|].
  destruct ids as [|i ids]; [discriminate|]. destruct ups as [|kv ups]; [discriminate|].
  cbv zeta in H.
  set (sel := selected (actor_id a) (i :: ids)) in *.
  remember (filter sel st) as F eqn:EF.
  destruct F as [|x xs]; [discriminate|].
  destruct (existsb _ (kv :: ups)) eqn:Ex; [discriminate|].
  rewrite existsb_negb_forallb, negb_false_iff in Ex.
  destruct (prep_updates cv (kv :: ups)) as [g|] eqn:P; [|discriminate].
  injection H as <- <-.
  split; [reflexivity|]. split; [cbn [length]; lia|]. split; [exact Ex|].
  split; [rewrite map_id_map_sel by exact (prep_updates_id _ _ g P); reflexivity|].
  split.
  { rewrite map_map. apply map_ext. intro s. destruct (sel s); [|reflexivity].
    exact (prep_updates_user _ _ g P s). }
  split.
  - intros s Hs Hsel. apply in_map_iff. exists s. rewrite Hsel. split; [reflexivity | exact Hs].
  - exists g. split; [reflexivity|]. intros s Hs Hsel.
    apply in_map_iff. exists s. rewrite Hsel. split; [reflexivity | exact Hs].
Qed.

Lemma bulk_update_success_shape_witness :
  exists st',
    bulk_update sample_conv owner1 [1; 4] [("filler_count"%string, JStr "12")] example_store
      = (mkResp 200 (PCount 1), st') /\
    map id st' = map id example_store /\
    map filler_count st' = [12; 3; 100; 9].
Proof.
  set (st' := snd (bulk_update sample_conv owner1 [1; 4] [("filler_count"%string, JStr "12")]
                     example_store)).
  assert (H : bulk_update sample_conv owner1 [1; 4] [("filler_count"%string, JStr "12")]
                example_store = (mkResp 200 (PCount 1), st')) by (vm_compute; reflexivity).
  exists st'. split; [exact H|]. split; [|vm_compute; reflexivity].
  exact (proj1 (proj2 (proj2 (proj2 (bulk_update_success_shape sample_conv owner1 [1; 4]
           [("filler_count"%string, JStr "12")] example_store 1 st' H))))).
Defined.

(** ** Page edits followed by reads *)

(** On the pages, a session shown to its owner and then edited through the
    form is shown afterwards as the form's fields applied to it and saved
    at the edit time; once deleted it is no longer found (404). *)
Theorem page_write_then_read :
  forall a pk now now' ps s st,
    page_detail a pk DetailGet now st = (mkResp 200 (PSession s), st) ->
    let st1 := snd (page_detail a pk (UpdatePost (Some ps)) now st) in
    let st2 := snd (page_detail a pk DeletePost now st) in
    page_detail a pk DetailGet now' st1
      = (mkResp 200 (PSession (save now (fold_left apply_patch ps s))), st1) /\
    page_detail a pk DetailGet now' st2
      = (err 404 "No SpeechSession matches the given query.", st2).
Proof.
  intros a pk now now' ps s st H. cbv zeta.
  unfold page_detail, page_gate in *.
  destruct (negb (is_authenticated a)); [discriminate|].
  destruct (is_2fa_enabled a && negb (has_2fa_setup a)); [discriminate|].
  destruct (find_by_id pk (owned (actor_id a) st)) as [s0|] eqn:F; [|discriminate].
  injection H as <-.
  assert (Fn : find_by_id pk (owned (actor_id a) st) <> None) by congruence.
  apply find_by_id_some in F as [Fin Fid]. apply in_owned in Fin as [_ Fu].
  destruct (fold_apply_patch_keys ps s0) as [K1 K2].
  cbn [snd]. split.
  - rewrite (find_put_owned (actor_id a) pk (save now (fold_left apply_patch ps s0)) st
               ltac:(cbn [save user]; congruence) ltac:(cbn [save id]; congruence) Fn).
    reflexivity.
  - rewrite Fid, find_delete_none. reflexivity.
Qed.

Lemma page_write_then_read_witness :
  page_detail owner1 2 DetailGet 0
    (snd (page_detail owner1 2 (UpdatePost (Some [SetPacing "fast"])) 9000 example_store))
  = (mkResp 200 (PSession (save 9000 (fold_left apply_patch [SetPacing "fast"]
                                        (sample 2 1 2000 120 3 "analyzed" None None)))),
     snd (page_detail owner1 2 (UpdatePost (Some [SetPacing "fast"])) 9000 example_store)).
Proof.
  exact (proj1 (page_write_then_read owner1 2 9000 0 [SetPacing "fast"]
                  (sample 2 1 2000 120 3 "analyzed" None None) example_store eq_refl)).
Defined.

(** ** Two-factor gates *)

(** For a logged-in user with two-factor authentication enabled: while
    the current login is not OTP-verified, every API endpoint answers 403
    and changes nothing; while no device is set up, every page redirects
    to the two-factor setup page and changes nothing. *)
Theorem two_factor_gates :
  forall hash_id fmt a st,
    is_authenticated a = true ->
    is_2fa_enabled a = true ->
    (is_verified a = false ->
     (forall fq, api_list fq a st = inl (err 403 "permission denied")) /\
     (forall pk now dur audio tr,
         api_create a pk now dur audio tr st = (err 403 "permission denied", st)) /\
     (forall pk act now,
         api_detail hash_id fmt a pk act now st = (err 403 "permission denied", st)) /\
     (forall now1 now2, api_analytics a now1 now2 st = inl (err 403 "permission denied")) /\
     (forall cv ids ups, bulk_update cv a ids ups st = (err 403 "permission denied", st))) /\
    (has_2fa_setup a = false ->
     (forall form pn,
         session_list_view a form pn st = inl (mkResp 302 (PRedirect "coach:setup_2fa"))) /\
     (forall req pk now,
         session_create_view a req pk now st
           = (mkResp 302 (PRedirect "coach:setup_2fa"), st)) /\
     (forall pk act now,
         page_detail a pk act now st = (mkResp 302 (PRedirect "coach:setup_2fa"), st)) /\
     (forall action ids,
         session_bulk_action_view a action ids st
           = (mkResp 302 (PRedirect "coach:setup_2fa"), st)) /\
     (forall now,
         session_analytics_view a now st = inl (mkResp 302 (PRedirect "coach:setup_2fa")))).
Proof.
  intros hash_id fmt a st Ha He. split.
  - intros Hv.
    assert (Hp : api_permission a = Some (err 403 "permission denied"))
      by (unfold api_permission; rewrite Ha, He, Hv; reflexivity).
    refine (conj _ (conj _ (conj _ (conj _ _)))); intros; gate_step Hp Hp.
  - intros Hs.
    assert (Hg : page_gate a = Some (mkResp 302 (PRedirect "coach:setup_2fa")))
      by (unfold page_gate; rewrite Ha, He, Hs; reflexivity).
    refine (conj _ (conj _ (conj _ (conj _ _)))); intros; gate_step Hg Hg.
Qed.

Lemma two_factor_gates_witness :
  api_detail (fun _ => 0) (fun _ => EmptyString) (mkActor 1 true true false false) 1 Destroy 0
    example_store = (err 403 "permission denied", example_store) /\
  session_list_view (mkActor 1 true true true false) None None example_store
    = inl (mkResp 302 (PRedirect "coach:setup_2fa")).
Proof.
  split.
  - exact (proj1 (proj2 (proj2 (proj1 (two_factor_gates (fun _ => 0) (fun _ => EmptyString)
                           (mkActor 1 true true false false) example_store eq_refl eq_refl)
                    eq_refl))) 1 Destroy 0).
  - exact (proj1 (proj2 (two_factor_gates (fun _ => 0) (fun _ => EmptyString)
                           (mkActor 1 true true true false) example_store eq_refl eq_refl)
                    eq_refl) None None).
Defined.

(** ** Duration display *)

Lemma string_length_app (x y : string) :
  String.length (x ++ y) = (String.length x + String.length y)%nat.
Proof. induction x as [|c x IH]; simpl; [reflexivity | rewrite IH; reflexivity]. Qed.

Lemma substring_prefix (x y : string) : substring 0 (String.length x) (x ++ y) = x.
Proof.
  induction x as [|c x IH]; simpl; [destruct y; reflexivity | rewrite IH; reflexivity].
Qed.

Lemma substring_tail2 (x : string) (c a b : ascii) :
  substring (String.length x + 1) 2 (x ++ String c (String a (String b EmptyString)))
    = String a (String b EmptyString).
Proof. induction x as [|d x IH]; simpl; [reflexivity | exact IH]. Qed.

Lemma py_str_int_parse (m : Z) : NilZero.int_of_string (py_str_int m) = Some (Z.to_int m).
Proof.
  unfold py_str_int. apply NilZero.isi; destruct m as [|p|p]; simpl; try discriminate;
    intro H; injection H as H; exact (Unsigned.to_uint_nonnil p H).
Qed.

Lemma digit_val_char (k : Z) : 0 <= k < 10 -> digit_val (digit_char k) = k.
Proof.
  intros H. unfold digit_val, digit_char. rewrite Ascii.nat_ascii_embedding by lia. lia.
Qed.

Lemma parse_pad2_ok (s : Z) : 0 <= s < 100 -> parse_pad2 (pad2 s) = Some s.
Proof.
  intros H. unfold parse_pad2, pad2.
  pose proof (Z.div_mod s 10 ltac:(lia)) as Hdm.
  pose proof (Z.mod_pos_bound s 10 ltac:(lia)) as Hmb.
  assert (Hq : 0 <= s / 10 < 10) by (split; [apply Z.div_pos | apply Z.div_lt_upper_bound]; lia).
  rewrite (digit_val_char (s / 10) Hq), (digit_val_char (s mod 10) Hmb).
  f_equal. lia.
Qed.

(** The admin's duration text loses nothing: reading back the minutes
    before the colon and the two-digit seconds after it gives the stored
    duration, for every integer duration (a negative one shows Python's
    floor division, e.g. [-1] as ["-1:59"]). *)
Theorem duration_minutes_roundtrip :
  forall d, parse_duration_minutes (duration_minutes d) = Some d.
Proof.
  intros d. unfold parse_duration_minutes, duration_minutes. cbv zeta.
  pose proof (Z.div_mod d 60 ltac:(lia)) as Hdm.
  pose proof (Z.mod_pos_bound d 60 ltac:(lia)) as Hmb.
  assert (Hp : parse_pad2 (pad2 (d mod 60)) = Some (d mod 60)) by (apply parse_pad2_ok; lia).
  revert Hp. unfold pad2. intro Hp.
  set (ms := py_str_int (d / 60)).
  set (a := digit_char (d mod 60 / 10)) in *. set (b := digit_char (d mod 60 mod 10)) in *.
  change (":" ++ String a (String b EmptyString))%string
    with (String ":" (String a (String b EmptyString))).
  rewrite string_length_app. cbn [String.length].
  replace (String.length ms + 3 - 3)%nat with (String.length ms) by lia.
  replace (String.length ms + 3 - 2)%nat with (String.length ms + 1)%nat by lia.
  rewrite substring_prefix, substring_tail2, Hp. subst ms.
  rewrite py_str_int_parse, DecimalZ.of_to. f_equal. lia.
Qed.

(** ** Status display *)

(** The model's CSS class and the admin's badge colour tell the three
    statuses apart, and any status outside the choices is shown exactly
    like [archived]. *)
Theorem status_display_fallback :
  forall st,
    ~ In st status_choices ->
    get_status_display_class st = get_status_display_class "archived" /\
    status_badge_colour st = status_badge_colour "archived" /\
    NoDup (map get_status_display_class status_choices) /\
    NoDup (map status_badge_colour status_choices).
Proof.
  intros st H. simpl in H.
  unfold get_status_display_class, status_badge_colour.
  destruct (String.eqb_spec st "pending"); [exfalso; apply H; subst; auto|].
  destruct (String.eqb_spec st "analyzed"); [exfalso; apply H; subst; auto|].
  destruct (String.eqb_spec st "archived"); [exfalso; apply H; subst; auto|].
  split; [reflexivity|]. split; [reflexivity|].
  split; simpl; repeat constructor; simpl; intuition discriminate.
Qed.

Lemma status_display_fallback_witness :
  get_status_display_class "deleted" = "bg-gray-100 text-gray-800"%string.
Proof.
  exact (proj1 (status_display_fallback "deleted"
                  ltac:(simpl; intuition discriminate))).
Defined.
